(** * Water-level forecasting backend (app.py): a shallow embedding

    The Flask application of [app.py] is embedded as pure functions over
    an explicit state: the visitor counter and the files on disk.
    Third-party behaviour (pandas, werkzeug, Jinja) is not part of the
    repository: it enters through the class [Libs] below, and the two
    models (Keras, Gemini) through the record [config], so every result
    holds for any behaviour of those libraries that fits the stated
    interface.

    Conventions.  Requests are served one after the other.  Writing and
    removing a file always succeed.  Timestamps have nanosecond
    resolution and no time zone.  Floats are an abstract type: the
    application never computes with them. *)

From Stdlib Require Import ZArith Ascii String.
From stdpp Require Import base numbers list strings gmap sorting.

Local Open Scope Z_scope.
Local Open Scope nat_scope.

(** ** Exceptions

    A Python call either returns a value or raises; the only thing the
    application observes of an exception is [str(e)]. *)

Inductive result (A : Type) : Type :=
| Ok (a : A)
| Raise (msg : string).
Arguments Ok {A} a.
Arguments Raise {A} msg.

#[global] Instance result_ret : MRet result := @Ok.
#[global] Instance result_bind : MBind result := fun A B k m =>
  match m with Ok a => k a | Raise e => Raise e end.

(** ** Strings *)

Module Str.

(** [c in s] for a one-character needle. *)
Fixpoint contains (c : ascii) (s : string) : bool :=
  match s with
  | EmptyString => false
  | String d r => Ascii.eqb d c || contains c r
  end.

(** The split of [s] at its last occurrence of [sep], when there is one. *)
Fixpoint rsplit_last (sep : ascii) (s : string) : option (string * string) :=
  match s with
  | EmptyString => None
  | String d r =>
      match rsplit_last sep r with
      | Some (before, after) => Some (String d before, after)
      | None => if Ascii.eqb d sep then Some (EmptyString, r) else None
      end
  end.

(** [s.rsplit(sep, 1)]: at most one split, taken from the right. *)
Definition rsplit1 (sep : ascii) (s : string) : list string :=
  match rsplit_last sep s with
  | Some (before, after) => [before; after]
  | None => [s]
  end.

Definition is_upper (c : ascii) : bool :=
  let n := nat_of_ascii c in (65 <=? n) && (n <=? 90).

Definition lower_char (c : ascii) : ascii :=
  if is_upper c then ascii_of_nat (nat_of_ascii c + 32) else c.

(** [s.lower()].  Only the letters A-Z are changed: the bytes of a
    non-ASCII character are left as they are, which no comparison with an
    ASCII extension can tell apart from Python's Unicode lowering. *)
Fixpoint lower (s : string) : string :=
  match s with
  | EmptyString => EmptyString
  | String c r => String (lower_char c) (lower r)
  end.

(** Two characters that are the same letter up to case. *)
Definition same_letter (c d : ascii) : Prop :=
  c = d \/
  (is_upper c = true /\ nat_of_ascii d = nat_of_ascii c + 32) \/
  (is_upper d = true /\ nat_of_ascii c = nat_of_ascii d + 32).

(** Equality of strings up to the case of their letters. *)
Fixpoint eq_ignore_case (s t : string) : Prop :=
  match s, t with
  | EmptyString, EmptyString => True
  | String c s', String d t' => same_letter c d /\ eq_ignore_case s' t'
  | _, _ => False
  end.

(** Whether [s] has no capital letter. *)
Fixpoint no_upper (s : string) : bool :=
  match s with
  | EmptyString => true
  | String c r => negb (is_upper c) && no_upper r
  end.

End Str.

(** ** File-upload configuration *)

Definition UPLOAD_FOLDER : string := "uploads".
Definition ALLOWED_EXTENSIONS : gset string := {[ "xlsx" ]}.

(** [allowed_file]: the [and] short-circuits, so the index [1] is only
    taken when the name has a dot and the split has two parts. *)
Definition allowed_file (filename : string) : bool :=
  Str.contains "." filename &&
  match Str.rsplit1 "." filename !! 1 with
  | Some ext => bool_decide (Str.lower ext ∈ ALLOWED_EXTENSIONS)
  | None => false
  end.

(** ** Timestamps

    A pandas [Timestamp] (nanosecond resolution) is a signed 64-bit count
    of nanoseconds since 1970-01-01T00:00; the least 64-bit value is
    reserved for [NaT], which the embedding writes [None]. *)

Module Time.

Definition ns_per_day : Z := 86400000000000.
Definition max_ns : Z := 9223372036854775807.
Definition min_ns : Z := -9223372036854775807.

Definition in_bounds (t : Z) : bool := ((min_ns <=? t) && (t <=? max_ns))%Z.

(** The calendar day of an instant, counted from 1970-01-01. *)
Definition day_of (t : Z) : Z := (t / ns_per_day)%Z.

(** [t + pd.Timedelta(days=k)], which overflows outside the 64-bit range. *)
Definition add_days (t : Z) (k : Z) : result Z :=
  let t' := (t + k * ns_per_day)%Z in
  if in_bounds t' then Ok t' else Raise "Overflow in int64 addition".

(** [pd.date_range(start=start, periods=n)]: daily frequency. *)
Definition date_range (start : Z) (periods : nat) : result (list Z) :=
  let idx := map (fun i : nat => (start + Z.of_nat i * ns_per_day)%Z) (seq 0 periods) in
  if forallb in_bounds idx then Ok idx
  else Raise "Out of bounds nanosecond timestamp".

(** Year, month and day of a day number in the proleptic Gregorian
    calendar (eras of 400 years that start on the first of March). *)
Definition civil_from_days (z : Z) : Z * Z * Z :=
  (let z := z + 719468 in
   let era := z / 146097 in
   let doe := z - era * 146097 in
   let yoe := (doe - doe / 1460 + doe / 36524 - doe / 146096) / 365 in
   let y := yoe + era * 400 in
   let doy := doe - (365 * yoe + yoe / 4 - yoe / 100) in
   let mp := (5 * doy + 2) / 153 in
   let d := doy - (153 * mp + 2) / 5 + 1 in
   let m := if mp <? 10 then mp + 3 else mp - 9 in
   (if m <=? 2 then y + 1 else y, m, d))%Z.

Definition digit (n : nat) : ascii := ascii_of_nat (48 + n mod 10).

(** Decimal digits of [n], most significant first. *)
Fixpoint decimal_aux (fuel n : nat) (acc : string) : string :=
  match fuel with
  | O => acc
  | S fuel' =>
      let acc' := String (digit n) acc in
      if n / 10 =? 0 then acc' else decimal_aux fuel' (n / 10) acc'
  end.

Definition decimal (n : nat) : string := decimal_aux (S n) n EmptyString.

(** The format [{:02d}]. *)
Definition decimal02 (n : nat) : string :=
  if n <? 10 then String "0" (decimal n) else decimal n.

(** The day [z] written [%Y-%m-%d]. *)
Definition format_day (z : Z) : string :=
  let '(y, m, d) := civil_from_days z in
  decimal (Z.to_nat y) +:+ "-" +:+ decimal02 (Z.to_nat m) +:+ "-" +:+ decimal02 (Z.to_nat d).

(** [t.strftime('%Y-%m-%d')]. *)
Definition strftime_ymd (t : Z) : string := format_day (day_of t).

Definition is_digit (c : ascii) : bool :=
  let n := nat_of_ascii c in (48 <=? n) && (n <=? 57).

(** The shape [YYYY-MM-DD]: ten characters, digits around two hyphens. *)
Definition is_ymd (s : string) : bool :=
  match list_ascii_of_string s with
  | [y1; y2; y3; y4; h1; m1; m2; h2; d1; d2] =>
      forallb is_digit [y1; y2; y3; y4; m1; m2; d1; d2] &&
      Ascii.eqb h1 "-" && Ascii.eqb h2 "-"
  | _ => false
  end.

End Time.

(** ** Third-party behaviour

    What the application leaves to its libraries.  [level] is the type of
    a float ([zero] is what [np.zeros] fills with) and [cell] the type of
    a spreadsheet cell as [pd.read_excel] delivers it. *)

Record DataFrame (cell : Type) : Type := mkFrame {
  columns : list string;        (* df.columns *)
  data : list (list cell)       (* the column of each label, in order *)
}.
Arguments mkFrame {cell} columns data.
Arguments columns {cell} d.
Arguments data {cell} d.

(** JSON values over floats of type [F]. *)
#[local] Unset Elimination Schemes.
Inductive json (F : Type) : Type :=
| JString (s : string)
| JFloat (x : F)
| JInt (n : nat)
| JList (items : list (json F))
| JDict (members : list (string * json F)).
#[local] Set Elimination Schemes.
Arguments JString {F} s.
Arguments JFloat {F} x.
Arguments JInt {F} n.
Arguments JList {F} items.
Arguments JDict {F} members.

Class Libs : Type := {
  level : Type;
  zero : level;
  cell : Type;
  (** [pd.read_excel(path, engine='openpyxl')] on the bytes at [path] *)
  read_excel : string -> result (DataFrame cell);
  (** [pd.to_datetime(column)]: a timestamp or [NaT] per cell; raises on
      a value it cannot convert *)
  to_datetime : list cell -> result (list (option Z));
  (** [pd.to_numeric(column, errors='coerce')], cell by cell: [NaN] is [None] *)
  to_numeric : cell -> option level;
  (** [werkzeug.utils.secure_filename] *)
  secure_filename : string -> string;
  (** [flask.render_template] *)
  render_template : string -> result string;
  (** [pd.DataFrame(x).describe().to_string()] on a decoded JSON value *)
  describe_to_string : json level -> result string;
  (** [str(x)] on a decoded JSON value, as an f-string inserts it *)
  py_str : json level -> string
}.

Section Application.
Context `{L : Libs}.

(** ** Arrays *)

Definition array2 : Type := list (list level).
Definition array3 : Type := list (list (list level)).

(** [len(a)], [a.shape[1]] and [a.shape[2]] all at once. *)
Definition has_shape (a : array3) (d0 d1 d2 : nat) : Prop :=
  length a = d0 /\
  Forall (fun block => length block = d1 /\ Forall (fun row : list level => length row = d2) block) a.

(** [values.reshape(-1, 1)] on a one-dimensional array. *)
Definition as_column (values : list level) : array2 := map (fun v => [v]) values.

(** [np.zeros((n, 1))] *)
Definition np_zeros (n : nat) : array2 := replicate n [zero].

(** [np.vstack([a, b])] *)
Definition np_vstack (a b : array2) : array2 := a ++ b.

(** [a[-n:]]: a start of [-0] is the start [0], and a start before the
    beginning is clipped to it. *)
Definition last_rows (n : nat) (a : array2) : array2 :=
  if n =? 0 then a else drop (length a - n) a.

(** [a.reshape(1, n, 1)] on a two-dimensional array. *)
Definition reshape_1_n_1 (n : nat) (a : array2) : result array3 :=
  let flat := concat a in
  if length flat =? n then Ok [map (fun v => [v]) flat]
  else Raise "cannot reshape array into shape (1, n, 1)".

(** [a[:, 1:, :]] *)
Definition drop_first_step (a : array3) : array3 := map (drop 1) a.

(** Whether all innermost rows of [a] and [b] have one length. *)
Definition same_width (a b : array3) : bool :=
  match concat a ++ concat b with
  | [] => true
  | row :: rows => forallb (fun r => length r =? length row) rows
  end.

(** [np.append(a, b, axis=1)] *)
Definition np_append_axis1 (a b : array3) : result array3 :=
  if (length a =? length b) && same_width a b then Ok (zip_with app a b)
  else Raise "all the input array dimensions except for the concatenation axis must match exactly".

(** [out[0][0]] *)
Definition index_0_0 (out : array2) : result level :=
  match out !! 0 with
  | Some row =>
      match row !! 0 with
      | Some v => Ok v
      | None => Raise "index 0 is out of bounds for axis 0 with size 0"
      end
  | None => Raise "index 0 is out of bounds for axis 0 with size 0"
  end.

(** ** Calls traced

    The body of the endpoint's [try] block raises or returns, and on the
    way calls [model.predict]; [calls] lists the windows handed to the
    model, oldest first.  The list is an observation of the run, not a
    value of the program. *)

Record traced (A : Type) : Type := Traced {
  outcome : result A;
  calls : list array3
}.
Arguments Traced {A} outcome calls.
Arguments outcome {A} t.
Arguments calls {A} t.

Definition ret {A} (a : A) : traced A := Traced (Ok a) [].

Definition lift {A} (r : result A) : traced A := Traced r [].

Definition bind {A B} (k : A -> traced B) (m : traced A) : traced B :=
  match outcome m with
  | Ok a => let r := k a in Traced (outcome r) (calls m ++ calls r)
  | Raise e => Traced (Raise e) (calls m)
  end.

#[global] Instance traced_ret : MRet traced := @ret.
#[global] Instance traced_bind : MBind traced := @bind.

(** The type of a loaded Keras model: [model.predict]. *)
Definition predictor : Type := array3 -> result array2.

Definition call_predict (predict : predictor) (x : array3) : traced array2 :=
  Traced (predict x) [x].

(** ** Cleaned series: the frame after lines 138-141, one (Date, Level) pair per row *)

Definition series : Type := list (Z * level).

(** [preprocess_data_for_prediction(df, time_step)] *)
Definition preprocess_data_for_prediction (df : series) (time_step : nat) : result array3 :=
  let data := as_column (map snd df) in
  let data :=
    if length data <? time_step then
      let padding := np_zeros (time_step - length data) in
      np_vstack padding data
    else data in
  reshape_1_n_1 time_step (last_rows time_step data).

(** One turn of the forecasting loop (lines 153-157). *)
Definition forecast_step (predict : predictor) (st : list level * array3)
  : traced (list level * array3) :=
  let '(forecast, current_input) := st in
  out ← call_predict predict current_input;
  prediction ← lift (index_0_0 out);
  let forecast := forecast ++ [prediction] in
  let new_input_step : array2 := [[prediction]] in
  step ← lift (reshape_1_n_1 1 new_input_step);
  current_input ← lift (np_append_axis1 (drop_first_step current_input) step);
  mret (forecast, current_input).

(** [for _ in range(n): ...] *)
Fixpoint forecast_loop (predict : predictor) (n : nat) (st : list level * array3)
  : traced (list level * array3) :=
  match n with
  | O => mret st
  | S n' => st' ← forecast_step predict st; forecast_loop predict n' st'
  end.

(** ** Reading and cleaning the spreadsheet *)

Fixpoint index_of (name : string) (labels : list string) : option nat :=
  match labels with
  | [] => None
  | l :: ls => if String.eqb l name then Some 0 else S <$> index_of name ls
  end.

(** [df[name]] *)
Definition df_column (df : DataFrame cell) (name : string) : result (list cell) :=
  match index_of name (columns df) with
  | Some i => Ok (default [] (data df !! i))
  | None => Raise name
  end.

(** [name in df.columns] *)
Definition has_column (df : DataFrame cell) (name : string) : bool :=
  bool_decide (name ∈ columns df).

(** [pd.to_datetime], whose timestamps fit 64 bits. *)
Definition pd_to_datetime (column : list cell) : result (list (option Z)) :=
  dates ← to_datetime column;
  if forallb (fun d => match d with Some t => Time.in_bounds t | None => true end) dates
  then Ok dates
  else Raise "Out of bounds nanosecond timestamp".

(** [df.dropna(subset=['Date', 'Level'])]: the rows with neither a [NaT]
    nor a [NaN]. *)
Definition dropna (rows : list (option Z * option level)) : series :=
  omap (fun row => match row with
                   | (Some d, Some l) => Some (d, l)
                   | _ => None
                   end) rows.

Definition date_le (r1 r2 : Z * level) : Prop := (r1.1 <= r2.1)%Z.

#[global] Instance date_le_dec : RelDecision date_le.
Proof. intros r1 r2. unfold date_le. apply _. Defined.

(** [df.sort_values('Date')]: ascending.  pandas does not promise an order
    among rows of one date; nothing below depends on that order. *)
Definition sort_values (rows : series) : series := merge_sort date_le rows.

(** Lines 138-141. *)
Definition clean_frame (df : DataFrame cell) : result series :=
  date_cells ← df_column df "Date";
  dates ← pd_to_datetime date_cells;
  level_cells ← df_column df "Level";
  let levels := map to_numeric level_cells in
  let rows := dropna (zip dates levels) in
  Ok (sort_values rows).

(** [s.iloc[-1]] *)
Definition iloc_last {A} (s : list A) : result A :=
  match last s with
  | Some x => Ok x
  | None => Raise "single positional indexer is out-of-bounds"
  end.

(** ** Responses *)

Inductive payload : Type :=
| Json (j : json level)
| Html (page : string).

Record response : Type := mkResponse {
  status : nat;
  body : payload
}.

(** [jsonify(obj), code] *)
Definition jsonify (code : nat) (obj : list (string * json level)) : response :=
  mkResponse code (Json (JDict obj)).

Definition error_response (code : nat) (msg : string) : response :=
  jsonify code [("error", JString msg)].

(** What Flask answers when a view raises. *)
Definition internal_server_error : response := mkResponse 500 (Html "Internal Server Error").

(** ** Server *)

(** The two module-level models, fixed once the module is imported;
    [None] when loading failed. *)
Record config : Type := mkConfig {
  model : option predictor;
  gemini_model : option (string -> result string)
}.

(** What requests can change: the visitor counter and the files on disk
    (path to contents). *)
Record world : Type := mkWorld {
  visitor_count : nat;
  fs : gmap string string
}.

Record FileStorage : Type := mkFile {
  filename : string;
  stream : string
}.

(** [os.path.join(folder, name)] on POSIX. *)
Definition os_path_join (folder name : string) : string :=
  match name with
  | String "/" _ => name
  | _ => folder +:+ "/" +:+ name
  end.

(** The body of the [try] block of [upload_and_forecast] (lines 132-176). *)
Definition process_upload (predict : predictor) (disk : gmap string string) (filepath : string)
  : traced response :=
  df ← lift (match disk !! filepath with
             | Some bytes => read_excel bytes
             | None => Raise "No such file or directory"
             end);
  if negb (has_column df "Date") || negb (has_column df "Level") then
    mret (error_response 400 "The .xlsx file must contain 'Date' and 'Level' columns.")
  else
    df ← lift (clean_frame df);
    let time_step := 100 in
    input_data ← lift (preprocess_data_for_prediction df time_step);
    let n_future := 30 in
    let current_input := input_data in
    '(forecast, _) ← forecast_loop predict n_future ([], current_input);
    let original_data :=
      [("dates", JList (map (fun r => JString (Time.strftime_ymd r.1)) df));
       ("levels", JList (map (fun r => JFloat r.2) df))] in
    last_date ← lift (iloc_last (map fst df));
    start ← lift (Time.add_days last_date 1);
    index ← lift (Time.date_range start n_future);
    let forecast_dates := map (fun t => JString (Time.strftime_ymd t)) index in
    let forecast_data :=
      [("dates", JList forecast_dates);
       ("levels", JList (map JFloat forecast))] in
    mret (jsonify 200 [("original_data", JDict original_data);
                       ("forecast_data", JDict forecast_data)]).

Record reply : Type := mkReply {
  resp : response;
  after : world;
  inference : list array3      (* the windows given to [model.predict] *)
}.

Definition quiet (r : response) (w : world) : reply := mkReply r w [].

(** [bool(file)]: a [FileStorage] is true when it has a name. *)
Definition truthy (file : FileStorage) : bool :=
  negb (String.eqb (filename file) EmptyString).

(** [upload_and_forecast] *)
Definition upload_and_forecast (cfg : config) (files : gmap string FileStorage) (w : world) : reply :=
  match model cfg with
  | None => quiet (error_response 500 "LSTM model is not loaded on the server.") w
  | Some predict =>
      match files !! "file" with
      | None => quiet (error_response 400 "No file part") w
      | Some file =>
          if String.eqb (filename file) EmptyString then
            quiet (error_response 400 "No selected file") w
          else if truthy file && allowed_file (filename file) then
            let name := secure_filename (filename file) in
            let filepath := os_path_join UPLOAD_FOLDER name in
            let disk := <[filepath := stream file]> (fs w) in
            let run := process_upload predict disk filepath in
            let r :=
              match outcome run with
              | Ok r => r
              | Raise e =>
                  error_response 500 ("An error occurred while processing the file: " +:+ e)
              end in
            let disk :=
              if bool_decide (is_Some (disk !! filepath)) then delete filepath disk else disk in
            mkReply r (mkWorld (visitor_count w) disk) (calls run)
          else
            quiet (error_response 400 "Invalid file type. Please upload a .xlsx file.") w
      end
  end.

(** [index]: the counter is bumped before the template is rendered. *)
Definition index (w : world) : reply :=
  let w := mkWorld (visitor_count w + 1) (fs w) in
  match render_template "index.html" with
  | Ok page => quiet (mkResponse 200 (Html page)) w
  | Raise _ => quiet internal_server_error w
  end.

(** [admin] *)
Definition admin (w : world) : reply :=
  match render_template "admin.html" with
  | Ok page => quiet (mkResponse 200 (Html page)) w
  | Raise _ => quiet internal_server_error w
  end.

(** [get_stats] *)
Definition get_stats (w : world) : reply :=
  quiet (jsonify 200 [("visitor_count", JInt (visitor_count w))]) w.

Definition newline : string := String (ascii_of_nat 10) EmptyString.
Definition double_quote : string := String (ascii_of_nat 34) EmptyString.

(** The lines of a triple-quoted literal, joined again. *)
Definition unlines (ls : list string) : string :=
  foldr (fun l acc => l +:+ newline +:+ acc) EmptyString ls.

Definition analyze_prompt (original_summary forecast_summary : string) : string :=
  newline +:+ unlines [
    "        As a senior hydrogeologist with 30 years of experience, provide a detailed, professional analysis of the following water level data. The user has provided historical data and an LSTM-based forecast.";
    EmptyString;
    "        Your analysis must be precise, clear, and structured like a formal report for a data analyst or water resource manager. Cover the following points:";
    "        1.  **Historical Data Interpretation:** Briefly describe the trends, seasonality, and any anomalies observed in the original data.";
    "        2.  **Forecast Evaluation:** Comment on the forecasted trend. Does it appear plausible based on the historical data? What do the forecasted levels signify?";
    "        3.  **Hydrogeological Implications:** What are the potential real-world implications of these observed and forecasted water levels? Consider factors like aquifer recharge/depletion, potential for water scarcity or flooding, and sustainability.";
    "        4.  **Recommendations:** Based on your analysis, provide actionable recommendations for monitoring, management, or further investigation.";
    EmptyString;
    "        **Historical Data Summary:**";
    "        " +:+ original_summary;
    EmptyString;
    "        **Forecasted Data Summary (next 30 days):**";
    "        " +:+ forecast_summary;
    EmptyString;
    "        Begin your analysis now."
  ] +:+ "        ".

Definition chat_prompt (context question : string) : string :=
  newline +:+ unlines [
    "        You are a helpful data assistant. A user is asking a question about their water level data.";
    "        Use the provided data context to answer their question accurately and concisely.";
    EmptyString;
    "        **Data Context (Original and Forecasted Levels):**";
    "        " +:+ context;
    EmptyString;
    "        **User's Question:**";
    "        " +:+ double_quote +:+ question +:+ double_quote;
    EmptyString;
    "        Answer the user's question based *only* on the provided data context."
  ] +:+ "        ".

(** The decoded JSON body of a request: absent, or an object. *)
Definition json_body : Type := option (gmap string (json level)).

(** [not data], then the membership tests, of a view. *)
Definition missing_keys (body : json_body) (keys : list string) : bool :=
  match body with
  | None => true
  | Some d => bool_decide (d = ∅) || existsb (fun k => bool_decide (d !! k = None)) keys
  end.

(** [data[key]] *)
Definition getitem (body : json_body) (key : string) : result (json level) :=
  match body with
  | Some d => match d !! key with Some v => Ok v | None => Raise key end
  | None => Raise "'NoneType' object is not subscriptable"
  end.

(** [analyze_data] *)
Definition analyze_data (cfg : config) (body : json_body) (w : world) : reply :=
  match gemini_model cfg with
  | None => quiet (error_response 500 "Gemini AI model not configured on the server.") w
  | Some generate_content =>
      if missing_keys body ["original_data"; "forecast_data"] then
        quiet (error_response 400 "Missing data for analysis.") w
      else
        let run : result response :=
          original ← getitem body "original_data";
          original_summary ← describe_to_string original;
          forecast ← getitem body "forecast_data";
          forecast_summary ← describe_to_string forecast;
          text ← generate_content (analyze_prompt original_summary forecast_summary);
          Ok (jsonify 200 [("analysis", JString text)]) in
        match run with
        | Ok r => quiet r w
        | Raise _ => quiet (error_response 500 "Failed to get analysis from AI model.") w
        end
  end.

(** [chat_with_data] *)
Definition chat_with_data (cfg : config) (body : json_body) (w : world) : reply :=
  match gemini_model cfg with
  | None => quiet (error_response 500 "Gemini AI model not configured on the server.") w
  | Some generate_content =>
      if missing_keys body ["question"; "full_data_context"] then
        quiet (error_response 400 "Missing question or data context for chat.") w
      else
        match getitem body "question", getitem body "full_data_context" with
        | Ok question, Ok context =>
            match generate_content (chat_prompt (py_str context) (py_str question)) with
            | Ok text => quiet (jsonify 200 [("answer", JString text)]) w
            | Raise _ => quiet (error_response 500 "Failed to get answer from AI model.") w
            end
        | _, _ => quiet internal_server_error w
        end
  end.

(** The routes of the application. *)
Inductive request : Type :=
| GET_index                                              (* GET / *)
| GET_admin                                              (* GET /admin *)
| GET_stats                                              (* GET /api/stats *)
| POST_upload (files : gmap string FileStorage)          (* POST /api/upload *)
| POST_analyze (body : json_body)                        (* POST /api/analyze *)
| POST_chat (body : json_body).                          (* POST /api/chat *)

Definition handle (cfg : config) (req : request) (w : world) : reply :=
  match req with
  | GET_index => index w
  | GET_admin => admin w
  | GET_stats => get_stats w
  | POST_upload files => upload_and_forecast cfg files w
  | POST_analyze body => analyze_data cfg body w
  | POST_chat body => chat_with_data cfg body w
  end.

(** The server's life: requests answered one after the other. *)
Fixpoint serve (cfg : config) (reqs : list request) (w : world) : world :=
  match reqs with
  | [] => w
  | req :: reqs => serve cfg reqs (after (handle cfg req w))
  end.

(** The state in which the module leaves the counter (line 69). *)
Definition initial_world (disk : gmap string string) : world := mkWorld 0 disk.

End Application.

Arguments Traced {L A} outcome calls.
Arguments outcome {L A} t.
Arguments calls {L A} t.

(** ** Notions used to state the properties *)

Section Notions.
Context `{L : Libs}.

(** The rows of a window: one value each. *)
Definition unit_rows (rows : array2) : Prop := Forall (fun r => length r = 1) rows.

(** The window after one turn: the oldest row leaves, the prediction enters. *)
Definition slide (rows : array2) (p : level) : array2 := drop 1 rows ++ [[p]].

(** The value the loop reads off the model's answer for a window. *)
Definition predicted (predict : predictor) (window : array3) (p : level) : Prop :=
  exists out, predict window = Ok out /\ index_0_0 out = Ok p.

Definition predict_0_0 (predict : predictor) (window : array3) : result level :=
  out ← predict window; index_0_0 out.

(** Lines 160-176: the response built from the cleaned series and the
    forecast. *)
Definition respond (df : series) (forecast : list level) : result response :=
  last_date ← iloc_last (map fst df);
  start ← Time.add_days last_date 1;
  index ← Time.date_range start 30;
  Ok (jsonify 200
        [("original_data",
          JDict [("dates", JList (map (fun r => JString (Time.strftime_ymd r.1)) df));
                 ("levels", JList (map (fun r => JFloat r.2) df))]);
         ("forecast_data",
          JDict [("dates", JList (map (fun t => JString (Time.strftime_ymd t)) index));
                 ("levels", JList (map JFloat forecast))])]).

Definition columns_error : response :=
  error_response 400 "The .xlsx file must contain 'Date' and 'Level' columns.".

(** Where the upload is written, and the run of the [try] block on it. *)
Definition upload_path (file : FileStorage) : string :=
  os_path_join UPLOAD_FOLDER (secure_filename (filename file)).

Definition upload_run (predict : predictor) (file : FileStorage) (w : world)
  : traced response :=
  process_upload predict (<[upload_path file := stream file]> (fs w)) (upload_path file).

Definition generic_error (e : string) : response :=
  error_response 500 ("An error occurred while processing the file: " +:+ e).

(** A row with a timestamp and a number. *)
Definition complete (row : option Z * option level) : Prop :=
  is_Some row.1 /\ is_Some row.2.

#[global] Instance complete_dec row : Decision (complete row).
Proof. unfold complete. apply _. Defined.

(** The three ways an upload can go. *)
Inductive upload_case (cfg : config) (files : gmap string FileStorage) (w : world) : Prop :=
| Refused :
    after (upload_and_forecast cfg files w) = w ->
    inference (upload_and_forecast cfg files w) = [] ->
    status (resp (upload_and_forecast cfg files w)) <> 200 ->
    upload_case cfg files w
| Stopped predict file :
    (* accepted, and ended before the forecasting loop *)
    model cfg = Some predict -> files !! "file" = Some file ->
    allowed_file (filename file) = true ->
    inference (upload_and_forecast cfg files w) = [] ->
    status (resp (upload_and_forecast cfg files w)) <> 200 ->
    upload_case cfg files w
| Forecast predict file df rows window :
    (* accepted, and the loop was entered *)
    model cfg = Some predict -> files !! "file" = Some file ->
    allowed_file (filename file) = true ->
    read_excel (stream file) = Ok df ->
    has_column df "Date" = true -> has_column df "Level" = true ->
    clean_frame df = Ok rows ->
    preprocess_data_for_prediction rows 100 = Ok [window] ->
    length window = 100 -> unit_rows window ->
    inference (upload_and_forecast cfg files w) =
      calls (forecast_loop predict 30 ([], [window])) ->
    resp (upload_and_forecast cfg files w) =
      match st ← outcome (forecast_loop predict 30 ([], [window])); respond rows st.1 with
      | Ok r => r
      | Raise e => generic_error e
      end ->
    upload_case cfg files w.

End Notions.

(** ** A concrete set of libraries

    A small stand-in for the third-party code, with integer levels, on
    which the definitions above can be run.  Its cells are those of a
    sheet whose text cells are neither numbers nor dates. *)

Module Sample.

Inductive xcell : Type :=
| Blank                      (* an empty cell *)
| Number (x : Z)             (* a numeric cell *)
| Date (t : Z)               (* a date cell, in nanoseconds since the epoch *)
| Junk (s : string).         (* text that is neither a number nor a date *)

Definition day (n : Z) : Z := (n * Time.ns_per_day)%Z.

(** Three measurements out of order, a row without date and a row
    without level. *)
Definition measurements : DataFrame xcell :=
  mkFrame ["Date"; "Level"]
    [ [Date (day 19725); Date (day 19723); Blank; Date (day 19724); Date (day 19726)];
      [Number 52; Number 50; Number 49; Number 51; Junk "n/a"] ].

(** A sheet with the wrong header. *)
Definition misnamed : DataFrame xcell :=
  mkFrame ["Day"; "Level"] [ [Date (day 19723)]; [Number 50] ].

(** A sheet none of whose rows has both a date and a level. *)
Definition hollow : DataFrame xcell :=
  mkFrame ["Date"; "Level"] [ [Date (day 19723); Blank]; [Junk "dry"; Number 50] ].

(** A sheet with a date cell that cannot be converted. *)
Definition garbled : DataFrame xcell :=
  mkFrame ["Date"; "Level"] [ [Junk "yesterday"]; [Number 50] ].

Definition x_read_excel (bytes : string) : result (DataFrame xcell) :=
  if String.eqb bytes "measurements" then Ok measurements
  else if String.eqb bytes "misnamed" then Ok misnamed
  else if String.eqb bytes "hollow" then Ok hollow
  else if String.eqb bytes "garbled" then Ok garbled
  else Raise "File is not a zip file".

Fixpoint x_to_datetime (column : list xcell) : result (list (option Z)) :=
  match column with
  | [] => Ok []
  | c :: cs =>
      match c, x_to_datetime cs with
      | Junk s, _ => Raise ("Unknown datetime string format, unable to parse: " +:+ s)
      | _, Raise e => Raise e
      | Blank, Ok ds => Ok (None :: ds)
      | Number x, Ok ds => Ok (Some x :: ds)
      | Date t, Ok ds => Ok (Some t :: ds)
      end
  end.

Definition x_to_numeric (c : xcell) : option Z :=
  match c with
  | Number x => Some x
  | _ => None
  end.

Definition is_safe (c : ascii) : bool :=
  let n := nat_of_ascii c in
  ((48 <=? n) && (n <=? 57)) || ((65 <=? n) && (n <=? 90)) || ((97 <=? n) && (n <=? 122))
  || (n =? 95) || (n =? 46) || (n =? 45).

Fixpoint keep_safe (s : string) : string :=
  match s with
  | EmptyString => EmptyString
  | String c r => if is_safe c then String c (keep_safe r) else keep_safe r
  end.

Fixpoint strip_left (s : string) : string :=
  match s with
  | String c r => if (nat_of_ascii c =? 46) || (nat_of_ascii c =? 95) then strip_left r else s
  | EmptyString => EmptyString
  end.

(** On names made of letters, digits, [-], [_] and inner dots this is
    werkzeug's function: the identity. *)
Definition x_secure_filename (s : string) : string := strip_left (keep_safe s).

Definition x_render_template (name : string) : result string :=
  if String.eqb name "index.html" then Ok "<h1>Forecast</h1>"
  else if String.eqb name "admin.html" then Ok "<h1>Admin</h1>"
  else Raise name.

#[export] Instance libs : Libs := {|
  level := Z;
  zero := 0%Z;
  cell := xcell;
  read_excel := x_read_excel;
  to_datetime := x_to_datetime;
  to_numeric := x_to_numeric;
  secure_filename := x_secure_filename;
  render_template := x_render_template;
  describe_to_string := fun _ => Ok "count  mean";
  py_str := fun j => match j with JString s => s | _ => "{}" end
|}.

(** A model that answers the newest value of its window plus one. *)
Definition persistence : predictor :=
  fun x =>
    match x with
    | [rows] => match last rows with
                | Some [v] => Ok [[(v + 1)%Z]]
                | _ => Raise "expected shape (None, 100, 1)"
                end
    | _ => Raise "expected shape (None, 100, 1)"
    end.

(** A model that is loaded but rejects every input. *)
Definition broken : predictor := fun _ => Raise "Graph execution error".

Definition with_model : config := mkConfig (Some persistence) None.
Definition with_broken_model : config := mkConfig (Some broken) None.
Definition without_model : config := mkConfig None None.

Definition upload (name bytes : string) : gmap string FileStorage :=
  {[ "file" := mkFile name bytes ]}.

Definition fresh : world := initial_world ∅.

End Sample.

(** Inputs on which the properties below are run. *)

Module Runs.
Import Sample.

Definition good : gmap string FileStorage := upload "levels.xlsx" "measurements".

(** The window of the first prediction and of the second. *)
Definition window1 : array3 :=
  [map (fun v => [v]) (replicate 97 0%Z ++ [50; 51; 52]%Z)].
Definition window2 : array3 :=
  [map (fun v => [v]) (replicate 96 0%Z ++ [50; 51; 52; 53]%Z)].

Definition three_rows : series :=
  [(day 19723, 50%Z); (day 19724, 51%Z); (day 19725, 52%Z)].

End Runs.

(** ** Further notions: visits, and the module's start *)

(** What the import of the module can meet when it loads a model. *)
Inductive load_failure : Type := IOError | ImportError | OtherError.

Inductive loading (A : Type) : Type :=
| Loaded (a : A)
| Failed (kind : load_failure) (msg : string).
Arguments Loaded {A} a.
Arguments Failed {A} kind msg.

Section Start.
Context `{L : Libs}.

Definition is_index (req : request) : bool :=
  match req with GET_index => true | _ => false end.

(** The number of requests for [/] in a list of requests. *)
Fixpoint visits (reqs : list request) : nat :=
  match reqs with
  | [] => 0
  | req :: reqs => (if is_index req then 1 else 0) + visits reqs
  end.

(** Lines 25-44: [os.environ["GEMINI_API_KEY"]] raises [KeyError] when the
    variable is unset, and then [gemini_model] is [None].
    [GenerativeModel key name] stands for the model that
    [genai.GenerativeModel(model_name=name, ...)] builds once
    [genai.configure(api_key=key)] has run. *)
Definition configure_gemini (environ : gmap string string)
    (GenerativeModel : string -> string -> string -> result string)
  : option (string -> result string) :=
  match environ !! "GEMINI_API_KEY" with
  | Some key => Some (GenerativeModel key "gemini-1.0-pro")
  | None => None
  end.

(** Lines 56-64: only [IOError] and [ImportError] are caught; any other
    exception ends the import, written [None]. *)
Definition load_lstm (load_model : string -> loading predictor) : option (option predictor) :=
  match load_model "standard_model.h5" with
  | Loaded m => Some (Some m)
  | Failed IOError _ | Failed ImportError _ => Some None
  | Failed OtherError _ => None
  end.

(** The configuration the import of the module leaves, when it completes. *)
Definition startup (environ : gmap string string)
    (GenerativeModel : string -> string -> string -> result string)
    (load_model : string -> loading predictor) : option config :=
  let gemini_model := configure_gemini environ GenerativeModel in
  match load_lstm load_model with
  | Some model => Some (mkConfig model gemini_model)
  | None => None
  end.

End Start.

(** More inputs on which properties are run. *)

Module Cases.
Import Sample.

(** A model whose answer is an empty array. *)
Definition mute : predictor := fun _ => Ok [].

(** A Gemini model with one answer, and one that is out of reach. *)
Definition oracle : string -> result string := fun _ => Ok "The level is stable.".
Definition offline : string -> result string := fun _ => Raise "503 Service Unavailable".

Definition with_mute_model : config := mkConfig (Some mute) None.
Definition with_gemini : config := mkConfig (Some persistence) (Some oracle).
Definition with_offline_gemini : config := mkConfig (Some persistence) (Some offline).

Definition analysis_body : json_body :=
  Some {[ "original_data" := JDict []; "forecast_data" := JDict [] ]}.

Definition chat_body : json_body :=
  Some {[ "question" := JString "Is the level rising?";
          "full_data_context" := JString "levels: 50, 51, 52" ]}.

Definition some_requests : list request :=
  [GET_index; GET_stats; POST_upload (upload "levels.xlsx" "measurements"); GET_index;
   POST_analyze None; GET_admin; GET_index].

(** A series of 101 rows: one old measurement and 100 recent ones. *)
Definition old_row : series := [(day 1, 7%Z)].
Definition recent_rows : series := replicate 100 (day 2, 8%Z).

Definition no_environ : gmap string string := ∅.
Definition missing_model_file : string -> loading predictor :=
  fun path => Failed IOError ("No file or directory found at " +:+ path).
Definition any_gemini : string -> string -> string -> result string :=
  fun _ _ _ => Ok "The level is stable.".

End Cases.

(** * Properties *)

Lemma Ok_inj {A} (a b : A) : Ok a = Ok b -> a = b.
Proof. by intros [= ->]. Qed.

(** ** Strings and the extension check *)

Module StrFacts.
Import Str.

Lemma rsplit_last_none sep s :
  rsplit_last sep s = None <-> contains sep s = false.
Proof.
  induction s as [|d r IH]; simpl; [tauto|].
  destruct (rsplit_last sep r) as [[b a]|].
  - split; [discriminate|]. intros H. apply orb_false_iff in H as [_ H].
    apply IH in H. discriminate.
  - destruct (Ascii.eqb d sep); simpl; [split; discriminate|].
    split; intros _; [by apply IH|done].
Qed.

Lemma rsplit_last_sound sep s b a :
  rsplit_last sep s = Some (b, a) ->
  s = b +:+ String sep a /\ contains sep a = false.
Proof.
  revert b a. induction s as [|d r IH]; intros b a; simpl; [discriminate|].
  destruct (rsplit_last sep r) as [[b' a']|] eqn:E.
  - intros [= <- <-]. destruct (IH _ _ eq_refl) as [-> Ha]. done.
  - apply rsplit_last_none in E.
    destruct (Ascii.eqb_spec d sep) as [->|Hne]; [|discriminate].
    intros [= <- <-]. done.
Qed.

Lemma rsplit_last_complete sep b a :
  contains sep a = false ->
  rsplit_last sep (b +:+ String sep a) = Some (b, a).
Proof.
  intros Ha. induction b as [|c b IH]; simpl.
  - apply rsplit_last_none in Ha. by rewrite Ha, Ascii.eqb_refl.
  - by rewrite IH.
Qed.

Lemma lower_char_same_letter c d :
  is_upper d = false -> lower_char c = d <-> same_letter c d.
Proof.
  intros Hd. unfold lower_char, same_letter. split.
  - destruct (is_upper c) eqn:Hc; [|by left].
    intros <-. right; left. split; [done|].
    unfold is_upper in Hc. apply andb_true_iff in Hc as [_ Hc%Nat.leb_le].
    apply nat_ascii_embedding. lia.
  - intros [->|[[Hc Hn]|[Hd' _]]]; [by rewrite Hd| |congruence].
    rewrite Hc, <- Hn. apply ascii_nat_embedding.
Qed.

Lemma lower_eq_ignore_case s t :
  no_upper t = true -> lower s = t <-> eq_ignore_case s t.
Proof.
  revert t. induction s as [|c s IH]; intros [|d t]; simpl; try (split; [discriminate|tauto]); [tauto|].
  intros [Hd%negb_true_iff Ht]%andb_true_iff. split.
  - intros [= Hc Hs]. split; [by apply lower_char_same_letter|by apply IH].
  - intros [Hc Hs]. f_equal; [by apply lower_char_same_letter|by apply IH].
Qed.

End StrFacts.

(** The index [1] that [allowed_file] takes exists whenever the name has a
    dot: the function never raises. *)
Lemma allowed_file_index_defined filename :
  Str.contains "." filename = true -> is_Some (Str.rsplit1 "." filename !! 1).
Proof.
  intros H. unfold Str.rsplit1.
  destruct (Str.rsplit_last "." filename) as [[b a]|] eqn:E; [by eexists|].
  apply StrFacts.rsplit_last_none in E. congruence.
Qed.

Lemma allowed_file_iff filename :
  allowed_file filename = true <->
  exists stem ext,
    filename = stem +:+ "." +:+ ext /\ Str.contains "." ext = false /\
    Str.eq_ignore_case ext "xlsx".
Proof.
  unfold allowed_file, Str.rsplit1. split.
  - intros [Hdot H]%andb_true_iff.
    destruct (Str.rsplit_last "." filename) as [[b a]|] eqn:E; [|done].
    apply StrFacts.rsplit_last_sound in E as [-> Ha]. simpl in H.
    apply bool_decide_eq_true in H. unfold ALLOWED_EXTENSIONS in H.
    apply elem_of_singleton in H. apply StrFacts.lower_eq_ignore_case in H; [|done].
    by exists b, a.
  - intros (stem & ext & -> & Hext & Hci).
    assert (Str.rsplit_last "." (stem +:+ "." +:+ ext) = Some (stem, ext)) as ->
      by by apply StrFacts.rsplit_last_complete.
    simpl. apply andb_true_iff. split.
    + clear. induction stem; simpl; [done|]. rewrite IHstem. apply orb_true_r.
    + apply bool_decide_eq_true. apply elem_of_singleton.
      by apply StrFacts.lower_eq_ignore_case.
Qed.

(** ** Windows and the forecasting loop *)

Section Forecasting.
Context `{L : Libs}.

Lemma has_shape_window rows n :
  has_shape [rows] 1 n 1 <-> length rows = n /\ unit_rows rows.
Proof.
  unfold has_shape, unit_rows. split.
  - intros [_ H]. rewrite Forall_singleton in H. exact H.
  - intros H. split; [done|]. rewrite Forall_singleton. exact H.
Qed.

Lemma concat_as_column (values : list level) : concat (as_column values) = values.
Proof. induction values; simpl; [done|]. by f_equal. Qed.

Lemma concat_np_zeros n : concat (np_zeros n) = replicate n zero.
Proof. induction n; simpl; [done|]. by f_equal. Qed.

Lemma unit_rows_as_column (values : list level) :
  unit_rows (map (fun v => [v]) values).
Proof. unfold unit_rows. apply Forall_fmap. by apply Forall_true. Qed.

Lemma reshape_1_n_1_ok n (a : array2) :
  length (concat a) = n ->
  reshape_1_n_1 n a = Ok [map (fun v => [v]) (concat a)].
Proof. intros H. unfold reshape_1_n_1. by rewrite (proj2 (Nat.eqb_eq _ _) H). Qed.

(** [preprocess_data_for_prediction] with a positive [time_step]: left
    padding with zeros, or the newest [time_step] values. *)
Lemma preprocess_padded (df : series) time_step :
  length df < time_step ->
  preprocess_data_for_prediction df time_step =
    Ok [map (fun v => [v]) (replicate (time_step - length df) zero ++ map snd df)].
Proof.
  intros Hlt. unfold preprocess_data_for_prediction.
  assert (length (as_column (map snd df)) = length df) as Hlen
    by (unfold as_column; by rewrite !length_map).
  rewrite Hlen, (proj2 (Nat.ltb_lt _ _) Hlt).
  unfold last_rows, np_vstack.
  destruct (Nat.eqb_spec time_step 0) as [->|Hpos]; [lia|].
  rewrite length_app, Hlen. unfold np_zeros at 1. rewrite length_replicate.
  replace (time_step - length df + length df - time_step) with 0 by lia.
  rewrite drop_0, reshape_1_n_1_ok.
  - by rewrite concat_app, concat_np_zeros, concat_as_column.
  - rewrite concat_app, concat_np_zeros, concat_as_column, length_app,
      length_replicate, length_map. lia.
Qed.

Lemma preprocess_newest (df : series) time_step :
  0 < time_step -> time_step <= length df ->
  preprocess_data_for_prediction df time_step =
    Ok [map (fun v => [v]) (drop (length df - time_step) (map snd df))].
Proof.
  intros Hpos Hle. unfold preprocess_data_for_prediction.
  assert (length (as_column (map snd df)) = length df) as Hlen
    by (unfold as_column; by rewrite !length_map).
  rewrite Hlen, (proj2 (Nat.ltb_ge _ _) Hle).
  unfold last_rows.
  destruct (Nat.eqb_spec time_step 0) as [->|_]; [lia|].
  rewrite Hlen.
  assert (concat (drop (length df - time_step) (as_column (map snd df)))
          = drop (length df - time_step) (map snd df)) as Hc.
  { unfold as_column. rewrite <- fmap_drop. apply concat_as_column. }
  rewrite reshape_1_n_1_ok; rewrite Hc; [done|].
  rewrite length_drop, length_map. lia.
Qed.

Lemma preprocess_shape (df : series) time_step :
  0 < time_step ->
  exists rows, preprocess_data_for_prediction df time_step = Ok [rows] /\
               length rows = time_step /\ unit_rows rows.
Proof.
  intros Hpos. destruct (Nat.lt_ge_cases (length df) time_step) as [Hlt|Hge].
  - eexists. split; [by apply preprocess_padded|]. split; [|apply unit_rows_as_column].
    rewrite length_map, length_app, length_replicate, length_map. lia.
  - eexists. split; [by apply preprocess_newest|]. split; [|apply unit_rows_as_column].
    rewrite length_map, length_drop, length_map. lia.
Qed.

Lemma slide_unit_rows rows p : unit_rows rows -> unit_rows (slide rows p).
Proof.
  intros H. unfold slide, unit_rows. apply Forall_app. split.
  - by apply Forall_drop.
  - by apply Forall_singleton.
Qed.

Lemma slide_length rows p : 0 < length rows -> length (slide rows p) = length rows.
Proof. intros H. unfold slide. rewrite length_app, length_drop. simpl. lia. Qed.

Lemma np_append_window rows p :
  unit_rows rows ->
  np_append_axis1 (drop_first_step [rows]) [[[p]]] = Ok [slide rows p].
Proof.
  intros H. unfold np_append_axis1, drop_first_step. simpl.
  assert (same_width [drop 1 rows] [[[p]]] = true) as ->; [|done].
  unfold same_width. simpl. rewrite app_nil_r.
  assert (unit_rows (drop 1 rows)) as Hd by by apply Forall_drop.
  destruct (drop 1 rows) as [|row rest]; simpl; [done|].
  apply Forall_cons in Hd as [Hrow Hrest].
  rewrite forallb_app. simpl. rewrite Hrow. simpl. rewrite andb_true_r.
  induction Hrest as [|r rest' Hr _ IH]; simpl; [done|].
  by rewrite Hr, IH.
Qed.

(** One turn on a window of unit rows, as an equation. *)
Lemma forecast_step_run predict forecast rows :
  unit_rows rows ->
  forecast_step predict (forecast, [rows]) =
    Traced (out ← predict [rows];
            prediction ← index_0_0 out;
            Ok (forecast ++ [prediction], [slide rows prediction]))
           [[rows]].
Proof.
  intros H. unfold forecast_step, call_predict, mbind, traced_bind, result_bind, bind.
  simpl. destruct (predict [rows]) as [out|e]; simpl; [|done].
  destruct (index_0_0 out) as [p|e]; simpl; [|done].
  change [drop 1 rows] with (drop_first_step [rows]).
  rewrite np_append_window by done. done.
Qed.

Lemma forecast_loop_S predict n st :
  forecast_loop predict (S n) st =
    (st' ← forecast_step predict st; forecast_loop predict n st').
Proof. done. Qed.

Lemma predict_0_0_ok predict window p :
  predict_0_0 predict window = Ok p <-> predicted predict window p.
Proof.
  unfold predict_0_0, predicted, mbind, result_bind. split.
  - destruct (predict window) as [out|e]; [|done]. intros H. by exists out.
  - intros (out & -> & H). done.
Qed.

Lemma forecast_loop_unfold predict n forecast rows :
  unit_rows rows ->
  forecast_loop predict (S n) (forecast, [rows]) =
    match predict_0_0 predict [rows] with
    | Ok p =>
        let r := forecast_loop predict n (forecast ++ [p], [slide rows p]) in
        Traced (outcome r) ([rows] :: calls r)
    | Raise e => Traced (Raise e) [[rows]]
    end.
Proof.
  intros H. rewrite forecast_loop_S, forecast_step_run by done.
  unfold predict_0_0, mbind, traced_bind, result_bind, bind. simpl.
  destruct (predict [rows]) as [out|e]; simpl; [|done].
  destruct (index_0_0 out) as [p|e]; simpl; done.
Qed.

(** Each window the model receives after the first is the one before
    it, slid by the prediction made from that one. *)
Lemma forecast_loop_chain predict n : forall forecast rows i wa wb,
  unit_rows rows -> 0 < length rows ->
  calls (forecast_loop predict n (forecast, [rows])) !! i = Some wa ->
  calls (forecast_loop predict n (forecast, [rows])) !! S i = Some wb ->
  exists ra p, wa = [ra] /\ predicted predict wa p /\ wb = [slide ra p] /\
               length ra = length rows.
Proof.
  induction n as [|n IH]; intros forecast rows i wa wb Hrows Hpos; [done|].
  rewrite forecast_loop_unfold by done.
  destruct (predict_0_0 predict [rows]) as [p|e] eqn:Hp; simpl.
  2: { intros _ H. by destruct i. }
  apply predict_0_0_ok in Hp.
  destruct i as [|i]; simpl.
  - intros [= <-] Hb. exists rows, p. split; [done|]. split; [done|]. split; [|done].
    destruct n as [|n]; [done|].
    rewrite forecast_loop_unfold in Hb by by apply slide_unit_rows.
    destruct (predict_0_0 predict [slide rows p]); simpl in Hb; congruence.
  - intros Ha Hb.
    assert (0 < length (slide rows p)) as Hpos' by by rewrite slide_length.
    destruct (IH _ _ _ _ _ (slide_unit_rows _ p Hrows) Hpos' Ha Hb)
      as (ra & q & -> & Hq & -> & Hlen).
    exists ra, q. split; [done|]. split; [done|]. split; [done|].
    by rewrite Hlen, slide_length.
Qed.

(** Every window the model receives has the length and the unit rows of
    the first one. *)
Lemma forecast_loop_calls_shape predict n : forall forecast rows w,
  unit_rows rows -> 0 < length rows ->
  w ∈ calls (forecast_loop predict n (forecast, [rows])) ->
  has_shape w 1 (length rows) 1.
Proof.
  induction n as [|n IH]; intros forecast rows w Hrows Hpos; [by intros ?%elem_of_nil|].
  rewrite forecast_loop_unfold by done.
  destruct (predict_0_0 predict [rows]) as [p|e]; simpl.
  - intros [->|Hin]%elem_of_cons; [by apply has_shape_window|].
    rewrite <- (slide_length rows p) by done.
    eapply IH; [by apply slide_unit_rows|by rewrite slide_length|done].
  - intros ->%list_elem_of_singleton. by apply has_shape_window.
Qed.

(** A loop that completes [n] turns called the model [n] times, appended
    the [n] predictions in order, and left a window of the same shape. *)
Lemma forecast_loop_ok predict n : forall forecast rows forecast' w',
  unit_rows rows -> 0 < length rows ->
  outcome (forecast_loop predict n (forecast, [rows])) = Ok (forecast', w') ->
  exists preds rows',
    forecast' = forecast ++ preds /\ w' = [rows'] /\
    length rows' = length rows /\ unit_rows rows' /\
    length preds = n /\
    Forall2 (predicted predict) (calls (forecast_loop predict n (forecast, [rows]))) preds.
Proof.
  induction n as [|n IH]; intros forecast rows forecast' w' Hrows Hpos.
  - simpl. intros [= <- <-]. exists [], rows. rewrite app_nil_r.
    repeat split; done.
  - rewrite forecast_loop_unfold by done.
    destruct (predict_0_0 predict [rows]) as [p|e] eqn:Hp; simpl; [|done].
    apply predict_0_0_ok in Hp. intros Hok.
    assert (0 < length (slide rows p)) as Hpos' by by rewrite slide_length.
    destruct (IH _ _ _ _ (slide_unit_rows _ p Hrows) Hpos' Hok)
      as (preds & rows' & -> & -> & Hlen & Hunit & Hn & Hall).
    exists (p :: preds), rows'. rewrite <- app_assoc. simpl.
    repeat split; try done.
    + by rewrite Hlen, slide_length.
    + by rewrite Hn.
    + by constructor.
Qed.

(** Sequencing is associative, traces included. *)
Lemma traced_bind_assoc {A B C} (m : traced A) (f : A -> traced B) (g : B -> traced C) :
  ((m ≫= f) ≫= g) = (m ≫= fun a => f a ≫= g).
Proof.
  unfold mbind, traced_bind, bind. destruct (outcome m) as [a|e]; simpl; [|done].
  destruct (outcome (f a)) as [b|e]; simpl; [|done].
  f_equal. symmetry. apply app_assoc.
Qed.


End Forecasting.

(** ** Dates *)

Module TimeFacts.
Import Time.

Example format_day_epoch : format_day 0 = "1970-01-01".
Proof. reflexivity. Qed.

Example format_day_leap_day : format_day 19782 = "2024-02-29".
Proof. reflexivity. Qed.

Example format_day_century : format_day (-25508) = "1900-03-01".
Proof. reflexivity. Qed.

Example strftime_earliest : strftime_ymd min_ns = "1677-09-21".
Proof. reflexivity. Qed.

Example strftime_latest : strftime_ymd max_ns = "2262-04-11".
Proof. reflexivity. Qed.

Lemma day_of_add t k : day_of (t + k * ns_per_day) = (day_of t + k)%Z.
Proof. unfold day_of. by rewrite Z.div_add. Qed.

Lemma day_of_bounds t :
  in_bounds t = true -> (-106752 <= day_of t <= 106751)%Z.
Proof.
  unfold in_bounds, day_of, min_ns, max_ns, ns_per_day.
  intros [H1%Z.leb_le H2%Z.leb_le]%andb_true_iff.
  Z.div_mod_to_equations. lia.
Qed.

Lemma year_of_era_bounds doe : (0 <= doe <= 146096)%Z ->
  let yoe := ((doe - doe / 1460 + doe / 36524 - doe / 146096) / 365)%Z in
  (0 <= yoe <= 399 /\ 0 <= doe - (365 * yoe + yoe / 4 - yoe / 100) <= 365)%Z.
Proof. intros H. cbv zeta. Z.div_mod_to_equations. lia. Qed.

Lemma month_day_bounds doy : (0 <= doy <= 365)%Z ->
  let mp := ((5 * doy + 2) / 153)%Z in
  (0 <= mp <= 11 /\ 1 <= doy - (153 * mp + 2) / 5 + 1 <= 31)%Z.
Proof. intros H. cbv zeta. Z.div_mod_to_equations. lia. Qed.

(** In the range of a timestamp the year has four digits, the month is
    1..12 and the day 1..31. *)
Lemma civil_from_days_bounds z y m d :
  (-106752 <= z <= 106751)%Z -> civil_from_days z = (y, m, d) ->
  (1000 <= y <= 9999 /\ 1 <= m <= 12 /\ 1 <= d <= 31)%Z.
Proof.
  intros Hz. unfold civil_from_days. cbv zeta.
  set (z' := (z + 719468)%Z). set (era := (z' / 146097)%Z).
  set (doe := (z' - era * 146097)%Z).
  assert (4 <= era <= 5)%Z as Hera by (subst era z'; Z.div_mod_to_equations; lia).
  assert (0 <= doe <= 146096)%Z as Hdoe by (subst doe era z'; Z.div_mod_to_equations; lia).
  destruct (year_of_era_bounds doe Hdoe) as [Hyoe Hdoy]. cbv zeta in Hyoe, Hdoy.
  set (yoe := ((doe - doe / 1460 + doe / 36524 - doe / 146096) / 365)%Z) in *.
  set (doy := (doe - (365 * yoe + yoe / 4 - yoe / 100))%Z) in *.
  destruct (month_day_bounds doy Hdoy) as [Hmp Hd]. cbv zeta in Hmp, Hd.
  set (mp := ((5 * doy + 2) / 153)%Z) in *.
  destruct (Z.ltb_spec mp 10) as [Hlt|Hge].
  - destruct (Z.leb_spec (mp + 3) 2); intros [= <- <- <-]; lia.
  - destruct (Z.leb_spec (mp - 9) 2); intros [= <- <- <-]; lia.
Qed.

Lemma nat_of_digit n : nat_of_ascii (digit n) = 48 + n mod 10.
Proof.
  unfold digit. apply nat_ascii_embedding.
  pose proof (Nat.mod_upper_bound n 10). lia.
Qed.

Lemma is_digit_digit n : is_digit (digit n) = true.
Proof.
  unfold is_digit. rewrite nat_of_digit.
  pose proof (Nat.mod_upper_bound n 10).
  apply andb_true_iff. split; apply Nat.leb_le; lia.
Qed.

Lemma decimal_aux_step fuel n acc :
  decimal_aux (S fuel) n acc =
    if n / 10 =? 0 then String (digit n) acc
    else decimal_aux fuel (n / 10) (String (digit n) acc).
Proof. done. Qed.

Lemma decimal_1 n : n < 10 -> decimal n = String (digit n) EmptyString.
Proof.
  intros H. unfold decimal. rewrite decimal_aux_step.
  by rewrite Nat.div_small, Nat.eqb_refl.
Qed.

Lemma decimal_aux_2 fuel n acc : 2 <= fuel -> 10 <= n < 100 ->
  decimal_aux fuel n acc = String (digit (n / 10)) (String (digit n) acc).
Proof.
  intros Hf H. destruct fuel as [|[|fuel]]; [lia..|].
  rewrite !decimal_aux_step.
  destruct (Nat.eqb_spec (n / 10) 0) as [E|_].
  { apply Nat.div_small_iff in E; lia. }
  rewrite (proj2 (Nat.eqb_eq (n / 10 / 10) 0)); [done|].
  apply Nat.div_small. apply Nat.Div0.div_lt_upper_bound. lia.
Qed.

Lemma decimal_2 n : 10 <= n < 100 ->
  decimal n = String (digit (n / 10)) (String (digit n) EmptyString).
Proof. intros H. apply decimal_aux_2; lia. Qed.

Lemma decimal_aux_4 fuel n acc : 4 <= fuel -> 1000 <= n < 10 * 1000 ->
  decimal_aux fuel n acc =
    String (digit (n / 1000)) (String (digit (n / 100))
      (String (digit (n / 10)) (String (digit n) acc))).
Proof.
  intros Hf H.
  assert (n / 10 / 10 = n / 100) as E2 by by rewrite Nat.Div0.div_div.
  assert (n / 100 / 10 = n / 1000) as E3 by by rewrite Nat.Div0.div_div.
  assert (100 <= n / 10) as H1 by (apply Nat.div_le_lower_bound; lia).
  assert (10 <= n / 100) as H2 by (apply Nat.div_le_lower_bound; lia).
  assert (1 <= n / 1000 < 10) as H3.
  { split; [apply Nat.div_le_lower_bound; lia|apply Nat.Div0.div_lt_upper_bound; lia]. }
  destruct fuel as [|[|[|[|fuel]]]]; [lia..|].
  rewrite decimal_aux_step.
  destruct (Nat.eqb_spec (n / 10) 0); [lia|].
  rewrite decimal_aux_step, E2.
  destruct (Nat.eqb_spec (n / 100) 0); [lia|].
  rewrite decimal_aux_step, E3.
  destruct (Nat.eqb_spec (n / 1000) 0); [lia|].
  rewrite decimal_aux_step.
  rewrite (proj2 (Nat.eqb_eq (n / 1000 / 10) 0)); [done|].
  apply Nat.div_small. lia.
Qed.

Lemma decimal_4 n : 1000 <= n < 10 * 1000 ->
  decimal n = String (digit (n / 1000)) (String (digit (n / 100))
                (String (digit (n / 10)) (String (digit n) EmptyString))).
Proof. intros H. apply decimal_aux_4; lia. Qed.

Lemma decimal02_digits n : 1 <= n < 100 ->
  exists a b, decimal02 n = String a (String b EmptyString) /\
              is_digit a = true /\ is_digit b = true.
Proof.
  intros H. unfold decimal02. destruct (Nat.ltb_spec n 10).
  - rewrite decimal_1 by done. exists "0"%char, (digit n). by rewrite is_digit_digit.
  - rewrite decimal_2 by lia. exists (digit (n / 10)), (digit n).
    by rewrite !is_digit_digit.
Qed.

(** Every day a timestamp can fall on is written [YYYY-MM-DD]. *)
Lemma format_day_is_ymd z :
  (-106752 <= z <= 106751)%Z -> is_ymd (format_day z) = true.
Proof.
  intros Hz. unfold format_day.
  destruct (civil_from_days z) as [[y m] d] eqn:E.
  destruct (civil_from_days_bounds _ _ _ _ Hz E) as (Hy & Hm & Hd).
  rewrite (decimal_4 (Z.to_nat y)) by lia.
  destruct (decimal02_digits (Z.to_nat m)) as (m1 & m2 & -> & Hm1 & Hm2); [lia|].
  destruct (decimal02_digits (Z.to_nat d)) as (d1 & d2 & -> & Hd1 & Hd2); [lia|].
  pose proof (is_digit_digit (Z.to_nat y / 1000)) as H1.
  pose proof (is_digit_digit (Z.to_nat y / 100)) as H2.
  pose proof (is_digit_digit (Z.to_nat y / 10)) as H3.
  pose proof (is_digit_digit (Z.to_nat y)) as H4.
  revert H1 H2 H3 H4.
  generalize (digit (Z.to_nat y / 1000)) (digit (Z.to_nat y / 100))
             (digit (Z.to_nat y / 10)) (digit (Z.to_nat y)).
  intros y1 y2 y3 y4 H1 H2 H3 H4.
  unfold is_ymd. simpl. by rewrite H1, H2, H3, H4, Hm1, Hm2, Hd1, Hd2.
Qed.

Lemma strftime_is_ymd t : in_bounds t = true -> is_ymd (strftime_ymd t) = true.
Proof. intros H. apply format_day_is_ymd. by apply day_of_bounds. Qed.

Lemma add_days_ok t k t' :
  add_days t k = Ok t' -> t' = (t + k * ns_per_day)%Z /\ in_bounds t' = true.
Proof.
  unfold add_days. destruct (in_bounds (t + k * ns_per_day)) eqn:E; [|done].
  by intros [= <-].
Qed.

Lemma date_range_ok start periods idx :
  date_range start periods = Ok idx ->
  idx = map (fun i : nat => (start + Z.of_nat i * ns_per_day)%Z) (seq 0 periods) /\
  forallb in_bounds idx = true.
Proof.
  unfold date_range.
  destruct (forallb in_bounds _) eqn:E; [|done]. by intros [= <-].
Qed.

End TimeFacts.

(** ** The upload endpoint, step by step *)

Section Endpoint.
Context `{L : Libs}.

Lemma bind_lift_ok {A B} (a : A) (k : A -> traced B) : (lift (Ok a) ≫= k) = k a.
Proof. unfold mbind, traced_bind, bind, lift. simpl. by destruct (k a). Qed.

Lemma lift_bind3 {A B C D} (r : result A) (k1 : A -> result B)
    (k2 : A -> B -> result C) (k3 : A -> B -> C -> D) :
  (lift r ≫= fun a => lift (k1 a) ≫= fun b => lift (k2 a b) ≫= fun c => mret (k3 a b c))
  = lift (r ≫= fun a => k1 a ≫= fun b => k2 a b ≫= fun c => Ok (k3 a b c)).
Proof.
  destruct r as [a|e]; [|done]. cbn.
  destruct (k1 a) as [b|e]; [|done]. cbn.
  by destruct (k2 a b) as [c|e].
Qed.

Lemma process_upload_run predict disk filepath bytes :
  disk !! filepath = Some bytes ->
  process_upload predict disk filepath =
    match read_excel bytes with
    | Raise e => Traced (Raise e) []
    | Ok df =>
        if negb (has_column df "Date") || negb (has_column df "Level")
        then Traced (Ok columns_error) []
        else
          match clean_frame df with
          | Raise e => Traced (Raise e) []
          | Ok rows =>
              match preprocess_data_for_prediction rows 100 with
              | Raise e => Traced (Raise e) []
              | Ok input =>
                  let r := forecast_loop predict 30 ([], input) in
                  Traced (st ← outcome r; respond rows st.1) (calls r)
              end
          end
    end.
Proof.
  intros Hfile. unfold process_upload. rewrite Hfile.
  destruct (read_excel bytes) as [df|e]; [rewrite bind_lift_ok|done].
  destruct (negb (has_column df "Date") || negb (has_column df "Level")); [done|].
  destruct (clean_frame df) as [rows|e]; [rewrite bind_lift_ok|done].
  destruct (preprocess_data_for_prediction rows 100) as [input|e];
    [rewrite bind_lift_ok|done].
  cbv zeta. generalize (forecast_loop predict 30 ([], input)). intros r.
  unfold mbind at 1, traced_bind, bind at 1.
  destruct (outcome r) as [[forecast window]|e]; [|done].
  match goal with
  | |- Traced (outcome ?t) _ = _ =>
      assert (t = lift (respond rows forecast)) as ->
  end.
  { unfold respond. apply lift_bind3. }
  unfold lift. cbn [outcome calls]. by rewrite app_nil_r.
Qed.

Lemma allowed_file_nonempty name : allowed_file name = true -> name <> EmptyString.
Proof. by intros H ->. Qed.

(** An accepted upload: the file is written, processed and removed. *)
Lemma upload_accepted cfg predict files file w :
  model cfg = Some predict -> files !! "file" = Some file ->
  allowed_file (filename file) = true ->
  upload_and_forecast cfg files w =
    mkReply (match outcome (upload_run predict file w) with
             | Ok r => r
             | Raise e => generic_error e
             end)
            (mkWorld (visitor_count w) (delete (upload_path file) (fs w)))
            (calls (upload_run predict file w)).
Proof.
  intros Hm Hf Ha. unfold upload_and_forecast, truthy. rewrite Hm, Hf, Ha.
  destruct (String.eqb_spec (filename file) EmptyString) as [E|_].
  { by apply allowed_file_nonempty in Ha. }
  cbn [negb andb]. fold (upload_path file).
  rewrite lookup_insert_eq.
  rewrite bool_decide_eq_true_2 by by eexists.
  by rewrite delete_insert_eq.
Qed.

(** A refused upload, or none at all: nothing is written and the model
    is not called. *)
Lemma upload_refused cfg files w :
  (model cfg = None \/ files !! "file" = None \/
   exists file, files !! "file" = Some file /\ allowed_file (filename file) = false) ->
  after (upload_and_forecast cfg files w) = w /\
  inference (upload_and_forecast cfg files w) = [] /\
  status (resp (upload_and_forecast cfg files w)) <> 200.
Proof.
  unfold upload_and_forecast.
  destruct (model cfg) as [predict|]; [|done].
  destruct (files !! "file") as [file|]; [|done].
  destruct (String.eqb (filename file) EmptyString); [done|].
  intros [?|[?|(file' & [= <-] & ->)]]; try done. by rewrite andb_false_r.
Qed.

End Endpoint.

(** ** Cleaning *)

Section Cleaning.
Context `{L : Libs}.

#[local] Instance date_le_total : Total date_le.
Proof. intros r1 r2. unfold date_le. lia. Qed.

#[local] Instance date_le_trans : Transitive date_le.
Proof. intros r1 r2 r3. unfold date_le. lia. Qed.

Lemma sort_values_sorted rows : StronglySorted date_le (sort_values rows).
Proof. apply StronglySorted_merge_sort; apply _. Qed.

Lemma sort_values_perm rows : sort_values rows ≡ₚ rows.
Proof. apply merge_sort_Permutation. Qed.

(** [dropna] keeps, in order, exactly the complete rows. *)
Lemma dropna_filter rows :
  map (fun r : Z * level => (Some r.1, Some r.2)) (dropna rows) = filter complete rows.
Proof.
  induction rows as [|[[d|] [l|]] rows IH]; simpl.
  - done.
  - rewrite filter_cons_True by (split; by eexists). simpl. by f_equal.
  - rewrite filter_cons_False; [done|]. by intros [_ [? ?]].
  - rewrite filter_cons_False; [done|]. by intros [[? ?] _].
  - rewrite filter_cons_False; [done|]. by intros [[? ?] _].
Qed.

Lemma dropna_elem d l rows : (d, l) ∈ dropna rows <-> (Some d, Some l) ∈ rows.
Proof.
  unfold dropna. rewrite list_elem_of_omap. split.
  - intros ([[d'|] [l'|]] & Hin & [= <- <-]). done.
  - intros H. by exists (Some d, Some l).
Qed.

(** What lines 138-141 compute, when they do not raise. *)
Lemma clean_frame_ok df rows :
  clean_frame df = Ok rows ->
  exists date_cells level_cells dates,
    df_column df "Date" = Ok date_cells /\
    df_column df "Level" = Ok level_cells /\
    to_datetime date_cells = Ok dates /\
    Forall (fun d => match d with Some t => Time.in_bounds t = true | None => True end) dates /\
    rows = sort_values (dropna (zip dates (map to_numeric level_cells))).
Proof.
  unfold clean_frame, pd_to_datetime, mbind, result_bind.
  destruct (df_column df "Date") as [date_cells|e]; [|done].
  destruct (to_datetime date_cells) as [dates|e] eqn:Hd; [|done].
  destruct (forallb _ dates) eqn:Hb; [|done].
  destruct (df_column df "Level") as [level_cells|e]; [|done].
  intros [= <-]. exists date_cells, level_cells, dates.
  split; [done|]. split; [done|]. split; [done|]. split; [|done].
  clear -Hb. induction dates as [|d dates IH]; [constructor|].
  simpl in Hb. apply andb_true_iff in Hb as [Hd Hb]. constructor; [|by apply IH].
  by destruct d.
Qed.

Lemma clean_frame_in_bounds df rows :
  clean_frame df = Ok rows -> Forall (fun r => Time.in_bounds r.1 = true) rows.
Proof.
  intros (date_cells & level_cells & dates & _ & _ & _ & Hb & ->)%clean_frame_ok.
  rewrite sort_values_perm. apply Forall_forall. intros [d l] Hin.
  apply dropna_elem in Hin. apply elem_of_zip_l in Hin.
  rewrite Forall_forall in Hb. apply (Hb (Some d) Hin).
Qed.

(** The last row of a sorted series carries its latest date. *)
Lemma last_is_latest (rows : series) r :
  StronglySorted date_le rows -> last rows = Some r ->
  forall r', r' ∈ rows -> (r'.1 <= r.1)%Z.
Proof.
  induction 1 as [|x rows Hs IH Hx]; [done|].
  intros Hlast r' Hin. destruct rows as [|y rows].
  - simpl in Hlast. injection Hlast as <-. apply list_elem_of_singleton in Hin as ->. lia.
  - change (last (y :: rows) = Some r) in Hlast.
    apply elem_of_cons in Hin as [->|Hin]; [|by apply IH].
    assert (r ∈ y :: rows) as Hr.
    { apply list_elem_of_lookup. exists (length rows).
      rewrite last_lookup in Hlast. exact Hlast. }
    rewrite Forall_forall in Hx. by apply Hx.
Qed.

End Cleaning.

(** ** The upload endpoint as a whole *)

Section Upload.
Context `{L : Libs}.

Lemma upload_run_unfold predict file w :
  upload_run predict file w =
    match read_excel (stream file) with
    | Raise e => Traced (Raise e) []
    | Ok df =>
        if negb (has_column df "Date") || negb (has_column df "Level")
        then Traced (Ok columns_error) []
        else
          match clean_frame df with
          | Raise e => Traced (Raise e) []
          | Ok rows =>
              match preprocess_data_for_prediction rows 100 with
              | Raise e => Traced (Raise e) []
              | Ok input =>
                  let r := forecast_loop predict 30 ([], input) in
                  Traced (st ← outcome r; respond rows st.1) (calls r)
              end
          end
    end.
Proof. unfold upload_run. apply process_upload_run. apply lookup_insert_eq. Qed.

Lemma upload_cases cfg files w : upload_case cfg files w.
Proof.
  destruct (model cfg) as [predict|] eqn:Hm.
  2: { destruct (upload_refused cfg files w) as (? & ? & ?); [by left|]. by apply Refused. }
  destruct (files !! "file") as [file|] eqn:Hf.
  2: { destruct (upload_refused cfg files w) as (? & ? & ?); [by right; left|].
       by apply Refused. }
  destruct (allowed_file (filename file)) eqn:Ha.
  2: { destruct (upload_refused cfg files w) as (? & ? & ?); [right; right; by exists file|].
       by apply Refused. }
  pose proof (upload_accepted cfg predict files file w Hm Hf Ha) as Hrun.
  rewrite upload_run_unfold in Hrun.
  destruct (read_excel (stream file)) as [df|e] eqn:Hread.
  2: { apply (Stopped _ _ _ predict file); try done; by rewrite Hrun. }
  destruct (has_column df "Date") eqn:Hd;
    [|apply (Stopped _ _ _ predict file); try done; by rewrite Hrun].
  destruct (has_column df "Level") eqn:Hl;
    [|apply (Stopped _ _ _ predict file); try done; by rewrite Hrun].
  cbn [negb orb] in Hrun.
  destruct (clean_frame df) as [rows|e] eqn:Hclean;
    [|apply (Stopped _ _ _ predict file); try done; by rewrite Hrun].
  destruct (preprocess_shape rows 100) as (window & Hpre & Hlen & Hunit); [lia|].
  rewrite Hpre in Hrun. cbv zeta in Hrun.
  apply (Forecast _ _ _ predict file df rows window); try done; by rewrite Hrun.
Qed.

(** A 200 answer comes from a completed loop and the response built
    after it. *)
Lemma upload_success cfg files w :
  status (resp (upload_and_forecast cfg files w)) = 200 ->
  exists predict file df rows window forecast window',
    model cfg = Some predict /\ files !! "file" = Some file /\
    allowed_file (filename file) = true /\
    read_excel (stream file) = Ok df /\
    has_column df "Date" = true /\ has_column df "Level" = true /\
    clean_frame df = Ok rows /\
    preprocess_data_for_prediction rows 100 = Ok [window] /\
    length window = 100 /\ unit_rows window /\
    outcome (forecast_loop predict 30 ([], [window])) = Ok (forecast, window') /\
    inference (upload_and_forecast cfg files w) =
      calls (forecast_loop predict 30 ([], [window])) /\
    respond rows forecast = Ok (resp (upload_and_forecast cfg files w)).
Proof.
  intros H200. destruct (upload_cases cfg files w)
    as [_ _ Hne|? ? _ _ _ _ Hne|predict file df rows window Hm Hf Ha Hr Hd Hl Hc Hp Hlen Hu Hi Hresp];
    [done..|].
  exists predict, file, df, rows, window.
  destruct (outcome (forecast_loop predict 30 ([], [window]))) as [[forecast window']|e].
  2: { rewrite Hresp in H200. done. }
  exists forecast, window'. repeat split; try done.
  unfold mbind, result_bind in Hresp. cbn [fst] in Hresp.
  destruct (respond rows forecast) as [r|e]; [by rewrite Hresp|].
  rewrite Hresp in H200. done.
Qed.

End Upload.

(** * The claims *)

Section Claims.
Context `{L : Libs}.

(** C1.  In the forecasting loop of /api/upload, the window given to the
    model for prediction [k+1] (for [k >= 1]) is the window of prediction
    [k] without its oldest value and with prediction [k] appended: its
    last element is prediction [k] and its first 99 elements are the last
    99 elements of the previous window. *)
Theorem C1_window_slides cfg files w k prev next :
  1 <= k ->
  inference (upload_and_forecast cfg files w) !! (k - 1) = Some prev ->
  inference (upload_and_forecast cfg files w) !! k = Some next ->
  exists predict rows p,
    model cfg = Some predict /\
    prev = [rows] /\ length rows = 100 /\
    predicted predict prev p /\
    next = [drop 1 rows ++ [[p]]] /\
    last (drop 1 rows ++ [[p]]) = Some [p] /\
    take 99 (drop 1 rows ++ [[p]]) = drop (length rows - 99) rows.
Proof.
  intros Hk Hprev Hnext.
  destruct (upload_cases cfg files w)
    as [_ Hnil _|? ? _ _ _ Hnil _|predict file df rows window Hm _ _ _ _ _ _ _ Hlen Hu Hi _].
  1,2: by rewrite Hnil in Hprev.
  rewrite Hi in Hprev, Hnext.
  replace k with (S (k - 1)) in Hnext by lia.
  destruct (forecast_loop_chain predict 30 [] window (k - 1) prev next Hu ltac:(lia) Hprev Hnext)
    as (ra & p & -> & Hp & -> & Hra).
  exists predict, ra, p. rewrite Hra, Hlen. unfold slide.
  split; [done|]. split; [done|]. split; [done|]. split; [done|]. split; [done|].
  split; [apply last_snoc|].
  rewrite take_app_le by (rewrite length_drop; lia).
  apply take_ge. rewrite length_drop. lia.
Qed.

(** C2.  The window has a fixed size: [preprocess_data_for_prediction]
    answers an array of shape (1, 100, 1) for every series, the window
    left by any number of completed turns of the loop has that shape, and
    so has every window the endpoint hands to [model.predict]. *)
Theorem C2_window_size :
  (forall df : series,
     exists input, preprocess_data_for_prediction df 100 = Ok input /\
                   has_shape input 1 100 1) /\
  (forall (predict : predictor) (df : series) input k forecast window,
     preprocess_data_for_prediction df 100 = Ok input ->
     outcome (forecast_loop predict k ([], input)) = Ok (forecast, window) ->
     has_shape window 1 100 1) /\
  (forall cfg files w window,
     window ∈ inference (upload_and_forecast cfg files w) ->
     has_shape window 1 100 1).
Proof.
  split; [|split].
  - intros df. destruct (preprocess_shape df 100) as (rows & Hp & Hlen & Hu); [lia|].
    exists [rows]. split; [done|]. by apply has_shape_window.
  - intros predict df input k forecast window Hp Hok.
    destruct (preprocess_shape df 100) as (rows & Hp' & Hlen & Hu); [lia|].
    rewrite Hp in Hp'. injection Hp' as ->.
    destruct (forecast_loop_ok predict k [] rows forecast window Hu ltac:(lia) Hok)
      as (preds & rows' & _ & -> & Hlen' & Hu' & _).
    apply has_shape_window. split; [lia|done].
  - intros cfg files w window Hin.
    destruct (upload_cases cfg files w)
      as [_ Hnil _|? ? _ _ _ Hnil _|predict file df rows win _ _ _ _ _ _ _ _ Hlen Hu Hi _].
    1,2: rewrite Hnil in Hin; by apply elem_of_nil in Hin.
    rewrite Hi in Hin. rewrite <- Hlen.
    by apply (forecast_loop_calls_shape predict 30 [] win window Hu ltac:(lia)).
Qed.

(** C3.  On a successful upload the loop has run its 30 turns: the model
    was called 30 times, [forecast_data] holds the 30 predictions in the
    order of the calls, and its 30 dates are the 30 calendar days after
    the latest date of the cleaned series. *)
Theorem C3_thirty_days cfg files w :
  status (resp (upload_and_forecast cfg files w)) = 200 ->
  exists predict file df rows last_date forecast dates original,
    model cfg = Some predict /\ files !! "file" = Some file /\
    read_excel (stream file) = Ok df /\ clean_frame df = Ok rows /\
    length (inference (upload_and_forecast cfg files w)) = 30 /\
    Forall2 (predicted predict) (inference (upload_and_forecast cfg files w)) forecast /\
    length forecast = 30 /\
    last (map fst rows) = Some last_date /\
    (forall r, r ∈ rows -> (r.1 <= last_date)%Z) /\
    dates = map (fun i : nat => Time.format_day (Time.day_of last_date + 1 + Z.of_nat i))
                (seq 0 30) /\
    length dates = 30 /\
    body (resp (upload_and_forecast cfg files w)) =
      Json (JDict [("original_data", original);
                   ("forecast_data",
                    JDict [("dates", JList (map JString dates));
                           ("levels", JList (map JFloat forecast))])]).
Proof.
  intros (predict & file & df & rows & window & forecast & window' & Hm & Hf & _ & Hr & _ & _
          & Hc & _ & Hlen & Hu & Hok & Hi & Hresp)%upload_success.
  destruct (forecast_loop_ok predict 30 [] window forecast window' Hu ltac:(lia) Hok)
    as (preds & rows' & -> & _ & _ & _ & Hn & Hall).
  rewrite app_nil_l in Hresp.
  unfold respond, mbind, result_bind, iloc_last in Hresp.
  destruct (last (map fst rows)) as [last_date|] eqn:Hlast; [|done].
  destruct (Time.add_days last_date 1) as [start|] eqn:Hstart; [|done].
  apply TimeFacts.add_days_ok in Hstart as [-> _].
  destruct (Time.date_range _ 30) as [index|] eqn:Hidx; [|done].
  apply TimeFacts.date_range_ok in Hidx as [-> _].
  apply Ok_inj in Hresp.
  exists predict, file, df, rows, last_date, preds. eexists. eexists.
  split; [done|]. split; [done|]. split; [done|]. split; [done|].
  split; [rewrite Hi; etrans; [exact (Forall2_length _ _ _ Hall)|exact Hn]|].
  split; [by rewrite Hi|]. split; [done|]. split; [done|].
  split.
  { intros r Hin. change (map fst rows) with (fst <$> rows) in Hlast.
    rewrite fmap_last in Hlast.
    destruct (last rows) as [r0|] eqn:Hl0; [|done]. injection Hlast as <-.
    destruct (clean_frame_ok _ _ Hc) as (? & ? & ? & _ & _ & _ & _ & ->).
    eapply last_is_latest; [apply sort_values_sorted|done..]. }
  split; [reflexivity|]. split; [by rewrite length_map, length_seq|].
  assert (forall i : nat,
    JString (F:=level) (Time.strftime_ymd
      (last_date + 1 * Time.ns_per_day + Z.of_nat i * Time.ns_per_day)) =
    JString (Time.format_day (Time.day_of last_date + 1 + Z.of_nat i))) as Hday.
  { intros i. f_equal. unfold Time.strftime_ymd. f_equal.
    replace (last_date + 1 * Time.ns_per_day + Z.of_nat i * Time.ns_per_day)%Z
      with (last_date + (1 + Z.of_nat i) * Time.ns_per_day)%Z by lia.
    rewrite TimeFacts.day_of_add. lia. }
  rewrite <- Hresp. unfold jsonify. cbn [body].
  rewrite !map_map, (map_ext _ _ Hday). reflexivity.
Qed.

(** C4, as amended.  [allowed_file] accepts exactly the names with a dot
    whose part after the last dot is [xlsx] up to case; when the model is
    loaded, a POST whose file has a non-empty name that fails the check is
    answered 400 "Invalid file type", nothing is written and the model is
    not called. *)
Theorem C4_upload_validation :
  (forall name,
     allowed_file name = true <->
     exists stem ext, name = stem +:+ "." +:+ ext /\ Str.contains "." ext = false /\
                      Str.eq_ignore_case ext "xlsx") /\
  (forall cfg predict files file w,
     model cfg = Some predict ->
     files !! "file" = Some file ->
     filename file <> EmptyString ->
     allowed_file (filename file) = false ->
     upload_and_forecast cfg files w =
       mkReply (error_response 400 "Invalid file type. Please upload a .xlsx file.") w []).
Proof.
  split; [apply allowed_file_iff|].
  intros cfg predict files file w Hm Hf Hne Ha.
  unfold upload_and_forecast. rewrite Hm, Hf, Ha, andb_false_r.
  by destruct (String.eqb_spec (filename file) EmptyString).
Qed.

(** C5, as amended.  When the model is loaded and the uploaded .xlsx
    spreadsheet lacks a [Date] or a [Level] column, the endpoint answers
    400 with the message about those columns and the model is not
    called. *)
Theorem C5_missing_columns cfg predict files file w df :
  model cfg = Some predict ->
  files !! "file" = Some file ->
  allowed_file (filename file) = true ->
  read_excel (stream file) = Ok df ->
  has_column df "Date" && has_column df "Level" = false ->
  resp (upload_and_forecast cfg files w) =
    error_response 400 "The .xlsx file must contain 'Date' and 'Level' columns." /\
  inference (upload_and_forecast cfg files w) = [].
Proof.
  intros Hm Hf Ha Hr Hcols.
  rewrite (upload_accepted cfg predict files file w Hm Hf Ha), upload_run_unfold, Hr.
  cbn [resp inference].
  assert (negb (has_column df "Date") || negb (has_column df "Level") = true) as ->; [|done].
  by destruct (has_column df "Date"), (has_column df "Level").
Qed.

(** C6.  GET / adds one to the visitor count; /api/stats reports the
    count and changes nothing; no other route changes the count; so the
    count never decreases while the server runs. *)
Theorem C6_visitor_count cfg w :
  visitor_count (after (handle cfg GET_index w)) = visitor_count w + 1 /\
  (after (handle cfg GET_stats w) = w /\
   resp (handle cfg GET_stats w) = jsonify 200 [("visitor_count", JInt (visitor_count w))]) /\
  (forall req, req <> GET_index ->
     visitor_count (after (handle cfg req w)) = visitor_count w) /\
  (forall reqs, visitor_count w <= visitor_count (serve cfg reqs w)).
Proof.
  assert (forall req w', req <> GET_index ->
            visitor_count (after (handle cfg req w')) = visitor_count w') as Hother.
  { intros req w' Hreq. destruct req as [| | |files|data|data]; simpl; try done.
    - unfold admin. by destruct (render_template "admin.html").
    - destruct (upload_cases cfg files w') as [-> _ _|predict file Hm Hf Ha _ _|
        predict file ? ? ? Hm Hf Ha _ _ _ _ _ _ _ _ _]; [done|..];
        by rewrite (upload_accepted cfg predict files file w' Hm Hf Ha).
    - unfold analyze_data. destruct (gemini_model cfg); [|done].
      destruct (missing_keys _ _); [done|]. by destruct (_ ≫= _).
    - unfold chat_with_data. destruct (gemini_model cfg) as [g|]; [|done].
      destruct (missing_keys _ _); [done|].
      destruct (getitem data "question"), (getitem data "full_data_context"); try done.
      by destruct (g _). }
  assert (forall w', visitor_count (after (handle cfg GET_index w')) = visitor_count w' + 1)
    as Hindex.
  { intros w'. simpl. unfold index. by destruct (render_template "index.html"). }
  split; [apply Hindex|]. split; [done|]. split; [intros req; apply Hother|].
  intros reqs. revert w. induction reqs as [|req reqs IH]; intros w; simpl; [done|].
  etrans; [|apply IH].
  destruct req; try (rewrite Hother by done; done).
  rewrite Hindex. lia.
Qed.

(** C7.  A successful upload answers an object with the keys
    [original_data] and [forecast_data], each with [dates] written
    YYYY-MM-DD and [levels]; [original_data] lists the rows that have both
    a timestamp and a numeric level, in ascending order of date, dates and
    levels side by side. *)
Theorem C7_response_shape cfg files w :
  status (resp (upload_and_forecast cfg files w)) = 200 ->
  exists file df date_cells level_cells dates rows odates olevels fdates flevels,
    files !! "file" = Some file /\ read_excel (stream file) = Ok df /\
    df_column df "Date" = Ok date_cells /\ df_column df "Level" = Ok level_cells /\
    to_datetime date_cells = Ok dates /\
    map (fun r : Z * level => (Some r.1, Some r.2)) rows ≡ₚ
      filter complete (zip dates (map to_numeric level_cells)) /\
    StronglySorted date_le rows /\
    odates = map (fun r => Time.strftime_ymd r.1) rows /\ olevels = map snd rows /\
    length odates = length olevels /\
    Forall (fun s => Time.is_ymd s = true) odates /\
    Forall (fun s => Time.is_ymd s = true) fdates /\
    length fdates = length flevels /\
    body (resp (upload_and_forecast cfg files w)) =
      Json (JDict [("original_data",
                    JDict [("dates", JList (map JString odates));
                           ("levels", JList (map JFloat olevels))]);
                   ("forecast_data",
                    JDict [("dates", JList (map JString fdates));
                           ("levels", JList (map JFloat flevels))])]).
Proof.
  intros (predict & file & df & rows & window & forecast & window' & Hm & Hf & _ & Hr & _ & _
          & Hc & _ & Hlen & Hu & Hok & Hi & Hresp)%upload_success.
  destruct (forecast_loop_ok predict 30 [] window forecast window' Hu ltac:(lia) Hok)
    as (preds & rows' & -> & _ & _ & _ & Hn & _).
  pose proof (clean_frame_in_bounds _ _ Hc) as Hbounds.
  destruct (clean_frame_ok _ _ Hc) as (date_cells & level_cells & dates & Hdc & Hlc & Hdt & _ & Hrows).
  unfold respond, mbind, result_bind, iloc_last in Hresp.
  destruct (last (map fst rows)) as [last_date|]; [|done].
  destruct (Time.add_days last_date 1) as [start|]; [|done].
  destruct (Time.date_range start 30) as [index|] eqn:Hidx; [|done].
  apply TimeFacts.date_range_ok in Hidx as [Hidx Hib].
  apply Ok_inj in Hresp.
  exists file, df, date_cells, level_cells, dates, rows,
    (map (fun r => Time.strftime_ymd r.1) rows), (map snd rows),
    (map Time.strftime_ymd index), preds.
  split; [done|]. split; [done|]. split; [done|]. split; [done|]. split; [done|].
  split.
  { rewrite <- dropna_filter, Hrows. by rewrite sort_values_perm. }
  split; [rewrite Hrows; apply sort_values_sorted|].
  split; [done|]. split; [done|]. split; [by rewrite !length_map|].
  split.
  { apply Forall_fmap. eapply Forall_impl; [exact Hbounds|].
    intros r Hb. by apply TimeFacts.strftime_is_ymd. }
  split.
  { apply Forall_fmap, Forall_forall. intros t Ht. apply TimeFacts.strftime_is_ymd.
    rewrite forallb_forall in Hib. apply Hib. by apply list_elem_of_In. }
  split; [by rewrite length_map, Hidx, length_map, length_seq, Hn|].
  rewrite <- Hresp. unfold jsonify. cbn [body]. by rewrite !map_map.
Qed.

(** C8.  A series of fewer than 100 points is padded on the left with
    zeros, the observed values following, to 100 entries; a series of 100
    points or more contributes exactly its last 100 values. *)
Theorem C8_short_series_padding (df : series) :
  (length df < 100 ->
   preprocess_data_for_prediction df 100 =
     Ok [map (fun v => [v]) (replicate (100 - length df) zero ++ map snd df)] /\
   length (replicate (100 - length df) zero ++ map snd df) = 100) /\
  (100 <= length df ->
   preprocess_data_for_prediction df 100 =
     Ok [map (fun v => [v]) (drop (length df - 100) (map snd df))] /\
   length (drop (length df - 100) (map snd df)) = 100).
Proof.
  split; intros H.
  - split; [by apply preprocess_padded|].
    rewrite length_app, length_replicate, length_map. lia.
  - split; [apply preprocess_newest; lia|].
    rewrite length_drop, length_map. lia.
Qed.

(** C9.  An upload that passes the file-type check leaves no file
    behind: whatever the outcome (success, a 400 for the columns, or the
    500 error response), the saved file is gone when the endpoint returns,
    and no other path of the disk has changed. *)
Theorem C9_upload_removed cfg files file w :
  files !! "file" = Some file ->
  allowed_file (filename file) = true ->
  (forall predict, model cfg = Some predict ->
     fs (after (upload_and_forecast cfg files w)) = delete (upload_path file) (fs w) /\
     fs (after (upload_and_forecast cfg files w)) !! upload_path file = None) /\
  (model cfg = None -> after (upload_and_forecast cfg files w) = w) /\
  fs (after (upload_and_forecast cfg files w)) ⊆ fs w.
Proof.
  intros Hf Ha. destruct (model cfg) as [predict|] eqn:Hm.
  - rewrite (upload_accepted cfg predict files file w Hm Hf Ha). cbn [after fs].
    split; [|split; [done|apply delete_subseteq]].
    intros _ _. split; [done|apply lookup_delete_eq].
  - destruct (upload_refused cfg files w) as (-> & _ & _); [by left|]. done.
Qed.

(** C10, as amended.  When the model is loaded and no row of a sheet
    with both columns survives cleaning, the answer is never a 400: it is
    the generic 500 error response.  The error is the one raised by
    cleaning when cleaning raises; when cleaning leaves an empty series,
    it is the one of the first failing model call, and the one raised by
    reading the last date once the 30 predictions have been made. *)
Theorem C10_empty_series cfg predict files file w df :
  model cfg = Some predict ->
  files !! "file" = Some file ->
  allowed_file (filename file) = true ->
  read_excel (stream file) = Ok df ->
  has_column df "Date" = true -> has_column df "Level" = true ->
  (forall row rows, clean_frame df <> Ok (row :: rows)) ->
  exists e,
    resp (upload_and_forecast cfg files w) = generic_error e /\
    (forall e', clean_frame df = Raise e' -> e = e') /\
    (clean_frame df = Ok [] ->
     match outcome (forecast_loop predict 30 ([], [replicate 100 [zero]])) with
     | Ok _ => e = "single positional indexer is out-of-bounds"
     | Raise e' => e = e'
     end).
Proof.
  intros Hm Hf Ha Hr Hd Hl Hempty.
  rewrite (upload_accepted cfg predict files file w Hm Hf Ha), upload_run_unfold, Hr, Hd, Hl.
  cbn [negb orb resp].
  destruct (clean_frame df) as [[|row rows]|e] eqn:Hc.
  - rewrite (preprocess_padded [] 100) by (simpl; lia). cbn [outcome].
    change (forecast_loop predict 30 ([], [map _ _]))
      with (forecast_loop predict 30 ([], [replicate 100 [zero]])).
    destruct (outcome (forecast_loop predict 30 ([], [replicate 100 [zero]]))) as [[f w']|e].
    + exists "single positional indexer is out-of-bounds". done.
    + exists e. done.
  - by destruct (Hempty row rows).
  - exists e. cbn [outcome]. split; [done|]. split; [|done]. by intros e' [= ->].
Qed.

End Claims.

(** * The claims on the sample libraries *)

Import Sample Runs.

Lemma C1_witness :
  exists predict rows p,
    model with_model = Some predict /\
    window1 = [rows] /\ length rows = 100 /\
    predicted predict window1 p /\
    window2 = [drop 1 rows ++ [[p]]] /\
    last (drop 1 rows ++ [[p]]) = Some [p] /\
    take 99 (drop 1 rows ++ [[p]]) = drop (length rows - 99) rows.
Proof.
  apply (C1_window_slides with_model good fresh 1 window1 window2).
  - lia.
  - reflexivity.
  - reflexivity.
Defined.

Lemma C2_witness : has_shape window2 1 100 1.
Proof.
  apply (proj2 (proj2 C2_window_size) with_model good fresh window2).
  apply list_elem_of_lookup. exists 1. reflexivity.
Defined.

Lemma C3_witness :
  length (inference (upload_and_forecast with_model good fresh)) = 30.
Proof.
  destruct (C3_thirty_days with_model good fresh) as (? & ? & ? & ? & ? & ? & ? & ? & H).
  - reflexivity.
  - apply H.
Defined.

Lemma C4_witness :
  upload_and_forecast with_model (upload "notes.txt" "measurements") fresh =
    mkReply (error_response 400 "Invalid file type. Please upload a .xlsx file.") fresh [].
Proof.
  apply (proj2 C4_upload_validation with_model persistence
           (upload "notes.txt" "measurements") (mkFile "notes.txt" "measurements") fresh).
  - reflexivity.
  - reflexivity.
  - discriminate.
  - reflexivity.
Defined.

(** The file check never runs on a server whose model failed to load:
    a POST with [notes.txt] is answered 500, not 400. *)
Lemma C4_counterexample :
  upload "notes.txt" "measurements" !! "file" = Some (mkFile "notes.txt" "measurements") /\
  allowed_file "notes.txt" = false /\
  resp (upload_and_forecast without_model (upload "notes.txt" "measurements") fresh) =
    error_response 500 "LSTM model is not loaded on the server." /\
  status (resp (upload_and_forecast without_model (upload "notes.txt" "measurements") fresh))
    <> 400.
Proof.
  split; [reflexivity|]. split; [reflexivity|]. split; [reflexivity|].
  change (500 <> 400). lia.
Qed.

Lemma C5_witness :
  resp (upload_and_forecast with_model (upload "levels.xlsx" "misnamed") fresh) =
    error_response 400 "The .xlsx file must contain 'Date' and 'Level' columns." /\
  inference (upload_and_forecast with_model (upload "levels.xlsx" "misnamed") fresh) = [].
Proof.
  apply (C5_missing_columns with_model persistence (upload "levels.xlsx" "misnamed")
           (mkFile "levels.xlsx" "misnamed") fresh misnamed); reflexivity.
Defined.

(** A sheet without a [Date] column, sent to a server without model, is
    answered 500, not 400. *)
Lemma C5_counterexample :
  upload "levels.xlsx" "misnamed" !! "file" = Some (mkFile "levels.xlsx" "misnamed") /\
  allowed_file "levels.xlsx" = true /\
  read_excel "misnamed" = Ok misnamed /\
  has_column misnamed "Date" = false /\
  resp (upload_and_forecast without_model (upload "levels.xlsx" "misnamed") fresh) =
    error_response 500 "LSTM model is not loaded on the server." /\
  status (resp (upload_and_forecast without_model (upload "levels.xlsx" "misnamed") fresh))
    <> 400.
Proof.
  split; [reflexivity|]. split; [reflexivity|]. split; [reflexivity|].
  split; [reflexivity|]. split; [reflexivity|].
  change (500 <> 400). lia.
Qed.

Lemma C6_witness :
  visitor_count (after (handle with_model GET_admin fresh)) = visitor_count fresh.
Proof.
  apply (proj1 (proj2 (proj2 (C6_visitor_count with_model fresh))) GET_admin).
  discriminate.
Defined.

Lemma C7_witness :
  exists odates olevels fdates flevels,
    length odates = length olevels /\
    Forall (fun s => Time.is_ymd s = true) odates /\
    Forall (fun s => Time.is_ymd s = true) fdates /\
    body (resp (upload_and_forecast with_model good fresh)) =
      Json (JDict [("original_data",
                    JDict [("dates", JList (map JString odates));
                           ("levels", JList (map JFloat olevels))]);
                   ("forecast_data",
                    JDict [("dates", JList (map JString fdates));
                           ("levels", JList (map JFloat flevels))])]).
Proof.
  destruct (C7_response_shape with_model good fresh)
    as (file & df & dc & lc & dates & rows & odates & olevels & fdates & flevels
        & _ & _ & _ & _ & _ & _ & _ & _ & _ & Hlen & Ho & Hf & _ & Hbody).
  - reflexivity.
  - exists odates, olevels, fdates, flevels.
    split; [exact Hlen|]. split; [exact Ho|]. split; [exact Hf|exact Hbody].
Defined.

Lemma C8_witness :
  preprocess_data_for_prediction three_rows 100 =
    Ok [map (fun v => [v]) (replicate 97 0%Z ++ [50; 51; 52]%Z)].
Proof.
  apply (proj1 (C8_short_series_padding three_rows)). simpl. lia.
Defined.

Lemma C9_witness :
  fs (after (upload_and_forecast with_model good fresh)) !! "uploads/levels.xlsx" = None.
Proof.
  apply (proj1 (C9_upload_removed with_model good (mkFile "levels.xlsx" "measurements") fresh
                  eq_refl eq_refl)
           persistence).
  reflexivity.
Defined.

Lemma C10_witness :
  resp (upload_and_forecast with_model (upload "levels.xlsx" "hollow") fresh) =
    generic_error "single positional indexer is out-of-bounds".
Proof.
  assert (forall row rows, clean_frame hollow <> Ok (row :: rows)) as Hempty
    by (intros row rows; discriminate).
  destruct (C10_empty_series with_model persistence (upload "levels.xlsx" "hollow")
              (mkFile "levels.xlsx" "hollow") fresh hollow
              eq_refl eq_refl eq_refl eq_refl eq_refl eq_refl Hempty)
    as (e & Hresp & _ & He).
  rewrite Hresp. f_equal. exact (He eq_refl).
Defined.

(** A sheet without a complete row.  Without model the answer is not the
    generic error response; with a model that fails, the error is the
    model's, not that of reading the last date; and a sheet whose only
    date cannot be parsed never reaches the last date either. *)
Lemma C10_counterexample :
  upload "levels.xlsx" "hollow" !! "file" = Some (mkFile "levels.xlsx" "hollow") /\
  allowed_file "levels.xlsx" = true /\
  read_excel "hollow" = Ok hollow /\
  has_column hollow "Date" = true /\ has_column hollow "Level" = true /\
  clean_frame hollow = Ok [] /\
  resp (upload_and_forecast without_model (upload "levels.xlsx" "hollow") fresh) =
    error_response 500 "LSTM model is not loaded on the server." /\
  resp (upload_and_forecast with_broken_model (upload "levels.xlsx" "hollow") fresh) =
    generic_error "Graph execution error" /\
  clean_frame garbled = Raise "Unknown datetime string format, unable to parse: yesterday" /\
  resp (upload_and_forecast with_model (upload "levels.xlsx" "garbled") fresh) =
    generic_error "Unknown datetime string format, unable to parse: yesterday".
Proof. repeat (split; [reflexivity|]). reflexivity. Qed.

(** * Further properties of the routes *)

Section Routes.
Context `{L : Libs}.

Lemma handle_count cfg req w :
  visitor_count (after (handle cfg req w)) =
    visitor_count w + (if is_index req then 1 else 0).
Proof.
  destruct req as [| | |files|data|data]; simpl.
  - unfold index. destruct (render_template "index.html"); simpl; lia.
  - unfold admin. destruct (render_template "admin.html"); simpl; lia.
  - lia.
  - destruct (upload_cases cfg files w) as [-> _ _|predict file Hm Hf Ha _ _|
      predict file ? ? ? Hm Hf Ha _ _ _ _ _ _ _ _ _]; [lia|..];
      rewrite (upload_accepted cfg predict files file w Hm Hf Ha); simpl; lia.
  - unfold analyze_data. destruct (gemini_model cfg); [|simpl; lia].
    destruct (missing_keys _ _); [simpl; lia|]. destruct (_ ≫= _); simpl; lia.
  - unfold chat_with_data. destruct (gemini_model cfg) as [g|]; [|simpl; lia].
    destruct (missing_keys _ _); [simpl; lia|].
    destruct (getitem data "question"), (getitem data "full_data_context");
      try (simpl; lia).
    destruct (g _); simpl; lia.
Qed.


Lemma respond_status df forecast r : respond df forecast = Ok r -> status r = 200.
Proof.
  unfold respond, mbind, result_bind.
  destruct (iloc_last _); [|done]. destruct (Time.add_days _ _); [|done].
  destruct (Time.date_range _ _); [|done]. by intros [= <-].
Qed.



Lemma forecast_loop_calls_le predict n : forall forecast rows,
  unit_rows rows ->
  length (calls (forecast_loop predict n (forecast, [rows]))) <= n.
Proof.
  induction n as [|n IH]; intros forecast rows Hrows; [done|].
  rewrite forecast_loop_unfold by done.
  destruct (predict_0_0 predict [rows]) as [p|e]; simpl; [|lia].
  specialize (IH (forecast ++ [p]) (slide rows p) (slide_unit_rows _ p Hrows)). lia.
Qed.

(** The LSTM model is called by [/api/upload] only, and at most 30 times
    for one request. *)
Theorem model_calls_bounded cfg req w :
  length (inference (handle cfg req w)) <= 30 /\
  match req with
  | POST_upload _ => True
  | _ => inference (handle cfg req w) = []
  end.
Proof.
  destruct req as [| | |files|data|data]; simpl.
  - unfold index. destruct (render_template "index.html"); simpl; (split; [lia|done]).
  - unfold admin. destruct (render_template "admin.html"); simpl; (split; [lia|done]).
  - split; [lia|done].
  - split; [|done].
    destruct (upload_cases cfg files w)
      as [_ -> _|? ? _ _ _ -> _|predict file df rows win _ _ _ _ _ _ _ _ _ Hu -> _];
      [simpl; lia..|].
    by apply forecast_loop_calls_le.
  - unfold analyze_data. destruct (gemini_model cfg); [|simpl; split; [lia|done]].
    destruct (missing_keys _ _); [simpl; split; [lia|done]|].
    destruct (_ ≫= _); simpl; (split; [lia|done]).
  - unfold chat_with_data. destruct (gemini_model cfg) as [g|]; [|simpl; split; [lia|done]].
    destruct (missing_keys _ _); [simpl; split; [lia|done]|].
    destruct (getitem data "question"), (getitem data "full_data_context");
      try (simpl; split; [lia|done]).
    destruct (g _); simpl; (split; [lia|done]).
Qed.

End Routes.

(** * Further properties of the forecast *)

Section Windows.
Context `{L : Libs}.

(** A completed loop of [n] turns on a window of at least [n] rows: the
    window of turn [i] is the first window without its [i] oldest rows,
    followed by the first [i] predictions. *)
Lemma forecast_loop_windows predict n : forall forecast rows forecast' w',
  unit_rows rows -> n <= length rows ->
  outcome (forecast_loop predict n (forecast, [rows])) = Ok (forecast', w') ->
  exists preds,
    forecast' = forecast ++ preds /\ length preds = n /\
    calls (forecast_loop predict n (forecast, [rows])) =
      map (fun i => [drop i rows ++ as_column (take i preds)]) (seq 0 n) /\
    w' = [drop n rows ++ as_column preds].
Proof.
  induction n as [|n IH]; intros forecast rows forecast' w' Hrows Hn.
  - simpl. intros [= <- <-]. exists []. by rewrite !app_nil_r.
  - rewrite forecast_loop_unfold by done.
    destruct (predict_0_0 predict [rows]) as [p|e]; simpl; [|done].
    intros Hok.
    assert (length (slide rows p) = length rows) as Hlen by (apply slide_length; lia).
    destruct (IH _ _ _ _ (slide_unit_rows _ p Hrows) ltac:(lia) Hok)
      as (preds & -> & Hpreds & -> & ->).
    assert (forall i, i <= n -> forall tail : array2,
              drop i (slide rows p) ++ tail = drop (S i) rows ++ [p] :: tail) as Hslide.
    { intros i Hi tail. unfold slide.
      rewrite drop_app_le by (rewrite length_drop; lia).
      by rewrite drop_drop, <- app_assoc. }
    exists (p :: preds). rewrite <- app_assoc. simpl.
    split; [done|]. split; [by rewrite Hpreds|]. split.
    + rewrite app_nil_r. f_equal. rewrite <- seq_shift, map_map.
      apply map_ext_in. intros i [_ Hi]%in_seq. f_equal. apply Hslide. lia.
    + f_equal. by apply Hslide.
Qed.

(** On a successful upload the 30 inputs of the model are known in closed
    form: input [i] is the preprocessed window without its [i] oldest
    entries, followed by the first [i] levels of the returned forecast. *)
Theorem model_inputs_closed_form cfg files w :
  status (resp (upload_and_forecast cfg files w)) = 200 ->
  exists file df rows window forecast original dates,
    files !! "file" = Some file /\ read_excel (stream file) = Ok df /\
    clean_frame df = Ok rows /\
    preprocess_data_for_prediction rows 100 = Ok [window] /\
    inference (upload_and_forecast cfg files w) =
      map (fun i => [drop i window ++ as_column (take i forecast)]) (seq 0 30) /\
    body (resp (upload_and_forecast cfg files w)) =
      Json (JDict [("original_data", original);
                   ("forecast_data",
                    JDict [("dates", dates); ("levels", JList (map JFloat forecast))])]).
Proof.
  intros (predict & file & df & rows & window & forecast & window' & Hm & Hf & _ & Hr & _ & _
          & Hc & Hp & Hlen & Hu & Hok & Hi & Hresp)%upload_success.
  destruct (forecast_loop_windows predict 30 [] window forecast window' Hu ltac:(lia) Hok)
    as (preds & -> & _ & Hcalls & _).
  rewrite app_nil_l in Hresp.
  exists file, df, rows, window, preds. 
  unfold respond, mbind, result_bind in Hresp.
  destruct (iloc_last _) as [last_date|]; [|done].
  destruct (Time.add_days _ _) as [start|]; [|done].
  destruct (Time.date_range _ _) as [index|]; [|done].
  apply Ok_inj in Hresp. eexists. eexists.
  split; [done|]. split; [done|]. split; [done|]. split; [done|].
  split; [by rewrite Hi|]. by rewrite <- Hresp.
Qed.

(** [preprocess_data_for_prediction] raises in one case only: a
    [time_step] of 0 on a series that is not empty (the slice [data[-0:]]
    is the whole array, which does not fit the shape (1, 0, 1)). *)
Theorem preprocess_raises_only_at_zero (df : series) time_step :
  (exists input, preprocess_data_for_prediction df time_step = Ok input) <->
  (0 < time_step \/ df = []).
Proof.
  split.
  - intros [input H]. destruct time_step as [|t]; [right|left; lia].
    unfold preprocess_data_for_prediction, last_rows, reshape_1_n_1 in H. simpl in H.
    rewrite concat_as_column, length_map in H.
    destruct df; [done|]. done.
  - intros [Hpos| ->].
    + destruct (preprocess_shape df time_step Hpos) as (rows & H & _). by eexists.
    + destruct time_step as [|t]; [by eexists|].
      destruct (preprocess_shape [] (S t)) as (rows & H & _); [lia|]. by eexists.
Qed.

(** Observations older than the last [time_step] never reach the model. *)
Theorem older_observations_ignored (old recent : series) time_step :
  0 < time_step -> length recent = time_step ->
  preprocess_data_for_prediction (old ++ recent) time_step =
    preprocess_data_for_prediction recent time_step.
Proof.
  intros Hpos Hlen.
  rewrite !preprocess_newest by (rewrite ?length_app; lia).
  rewrite length_app, Hlen, Nat.sub_diag, drop_0.
  replace (length old + time_step - time_step) with (length old) by lia.
  rewrite map_app, drop_app_length'; [done|]. by rewrite length_map.
Qed.

(** A series too short for the window is, for the model, the same as that
    series preceded by measurements of level zero (at whatever date). *)
Theorem short_series_as_zero_levels (df : series) time_step (d : Z) :
  length df < time_step ->
  preprocess_data_for_prediction (replicate (time_step - length df) (d, zero) ++ df) time_step =
    preprocess_data_for_prediction df time_step.
Proof.
  intros Hlt. rewrite (preprocess_padded df) by done.
  rewrite preprocess_newest by (rewrite ?length_app, ?length_replicate; lia).
  rewrite length_app, length_replicate.
  replace (time_step - length df + length df - time_step) with 0 by lia.
  rewrite drop_0, map_app. do 3 f_equal.
  induction (time_step - length df) as [|k IH]; simpl; [done|]. by rewrite IH.
Qed.

End Windows.

(** * Further properties of the upload *)

Module CaseFacts.
Import Str.

Lemma lower_char_is_dot c : Ascii.eqb (lower_char c) "." = Ascii.eqb c ".".
Proof. destruct c as [[] [] [] [] [] [] [] []]; reflexivity. Qed.

Lemma lower_char_idem c : lower_char (lower_char c) = lower_char c.
Proof. destruct c as [[] [] [] [] [] [] [] []]; reflexivity. Qed.

Lemma lower_idem s : lower (lower s) = lower s.
Proof. induction s as [|c s IH]; simpl; [done|]. by rewrite lower_char_idem, IH. Qed.

Lemma contains_dot_lower s : contains "." (lower s) = contains "." s.
Proof. induction s as [|c s IH]; simpl; [done|]. by rewrite lower_char_is_dot, IH. Qed.

Lemma rsplit_last_lower s :
  rsplit_last "." (lower s) =
    match rsplit_last "." s with
    | Some (before, after) => Some (lower before, lower after)
    | None => None
    end.
Proof.
  induction s as [|c s IH]; simpl; [done|]. rewrite IH, lower_char_is_dot.
  destruct (rsplit_last "." s) as [[b a]|]; [done|]. by destruct (Ascii.eqb c ".").
Qed.

Lemma allowed_file_lower name : allowed_file (lower name) = allowed_file name.
Proof.
  unfold allowed_file, rsplit1. rewrite contains_dot_lower, rsplit_last_lower.
  destruct (rsplit_last "." name) as [[b a]|]; simpl; [|done].
  by rewrite lower_idem.
Qed.

End CaseFacts.

(** Two names that differ only in the case of their letters are accepted
    or refused together. *)
Theorem allowed_file_ignores_case a b :
  Str.lower a = Str.lower b -> allowed_file a = allowed_file b.
Proof.
  intros H. by rewrite <- (CaseFacts.allowed_file_lower a), H, CaseFacts.allowed_file_lower.
Qed.

Section Uploads.
Context `{L : Libs}.

(** A workbook that [pd.read_excel] cannot read: the text of its exception
    is sent to the client in the generic 500, the model is not called and
    the file is removed. *)
Theorem unreadable_workbook cfg predict files file w e :
  model cfg = Some predict ->
  files !! "file" = Some file ->
  allowed_file (filename file) = true ->
  read_excel (stream file) = Raise e ->
  upload_and_forecast cfg files w =
    mkReply (error_response 500 ("An error occurred while processing the file: " +:+ e))
            (mkWorld (visitor_count w) (delete (upload_path file) (fs w))) [].
Proof.
  intros Hm Hf Ha Hr.
  by rewrite (upload_accepted cfg predict files file w Hm Hf Ha), upload_run_unfold, Hr.
Qed.

Lemma forecast_loop_first_failure predict n forecast rows e :
  unit_rows rows -> predict_0_0 predict [rows] = Raise e ->
  forecast_loop predict (S n) (forecast, [rows]) = Traced (Raise e) [[rows]].
Proof. intros Hu He. rewrite forecast_loop_unfold by done. by rewrite He. Qed.

(** A model that fails on the first window, by raising or by answering an
    array without an element [0][0], is called exactly once; its error is
    the one reported. *)
Theorem first_model_failure cfg predict files file w df rows window e :
  model cfg = Some predict ->
  files !! "file" = Some file ->
  allowed_file (filename file) = true ->
  read_excel (stream file) = Ok df ->
  has_column df "Date" = true -> has_column df "Level" = true ->
  clean_frame df = Ok rows ->
  preprocess_data_for_prediction rows 100 = Ok window ->
  (out ← predict window; index_0_0 out) = Raise e ->
  resp (upload_and_forecast cfg files w) = generic_error e /\
  inference (upload_and_forecast cfg files w) = [window].
Proof.
  intros Hm Hf Ha Hr Hd Hl Hc Hp He.
  rewrite (upload_accepted cfg predict files file w Hm Hf Ha), upload_run_unfold,
    Hr, Hd, Hl, Hc, Hp.
  cbn [negb orb]. cbv zeta. cbn [resp inference outcome calls].
  destruct (preprocess_shape rows 100) as (win & Hp' & _ & Hu); [lia|].
  rewrite Hp in Hp'. injection Hp' as ->.
  pose proof (forecast_loop_first_failure predict 29 [] win e Hu He) as Hloop.
  match goal with
  | |- context [calls ?x] => replace x with (Traced (A:=list level * array3) (Raise e) [[win]])
  end.
  done.
Qed.

(** The answer to an upload, and the calls to the model, do not depend on
    the state of the server: neither on the counter nor on the files on
    disk.  Sending the same upload again leaves the disk as the first
    time. *)
Theorem upload_stateless cfg files w w' :
  resp (upload_and_forecast cfg files w) = resp (upload_and_forecast cfg files w') /\
  inference (upload_and_forecast cfg files w) = inference (upload_and_forecast cfg files w') /\
  fs (after (upload_and_forecast cfg files (after (upload_and_forecast cfg files w)))) =
    fs (after (upload_and_forecast cfg files w)).
Proof.
  destruct (model cfg) as [predict|] eqn:Hm.
  2: { unfold upload_and_forecast. by rewrite Hm. }
  destruct (files !! "file") as [file|] eqn:Hf.
  2: { unfold upload_and_forecast. by rewrite Hm, Hf. }
  destruct (allowed_file (filename file)) eqn:Ha.
  2: { unfold upload_and_forecast. rewrite Hm, Hf, Ha, andb_false_r.
       by destruct (String.eqb _ _). }
  rewrite !(upload_accepted cfg predict files file _ Hm Hf Ha), !upload_run_unfold.
  cbn [resp inference after fs]. by rewrite delete_delete_eq.
Qed.

Lemma has_column_index (df : DataFrame cell) name :
  has_column df name = true -> is_Some (index_of name (columns df)).
Proof.
  unfold has_column. intros H%bool_decide_eq_true.
  induction (columns df) as [|l ls IH]; [by apply elem_of_nil in H|].
  simpl. destruct (String.eqb_spec l name) as [->|Hne]; [by eexists|].
  apply elem_of_cons in H as [->|H]; [done|].
  destruct (IH H) as [i ->]. by eexists.
Qed.



End Uploads.

(** * Properties of the two Gemini routes and of the start *)

Section Gemini.
Context `{L : Libs}.

Lemma missing_two_keys (body : json_body) a b :
  missing_keys body [a; b] = false <->
  exists d va vb, body = Some d /\ d !! a = Some va /\ d !! b = Some vb.
Proof.
  destruct body as [d|]; simpl.
  2: { split; [done|]. by intros (? & ? & ? & ? & _). }
  rewrite orb_false_r, !orb_false_iff, !bool_decide_eq_false. split.
  - intros (_ & Ha & Hb).
    destruct (d !! a) as [va|] eqn:Ea; [|done].
    destruct (d !! b) as [vb|] eqn:Eb; [|done].
    by exists d, va, vb.
  - intros (d' & va & vb & [= <-] & Ha & Hb). rewrite Ha, Hb.
    split; [|done]. intros ->. by rewrite lookup_empty in Ha.
Qed.



(** [/api/chat] with a question and a context, of whatever JSON type:
    Gemini receives the prompt built from their [str], and its text is
    relayed. *)
Theorem chat_relays_gemini cfg g d question context w :
  gemini_model cfg = Some g ->
  d !! "question" = Some question -> d !! "full_data_context" = Some context ->
  chat_with_data cfg (Some d) w =
    quiet (match g (chat_prompt (py_str context) (py_str question)) with
           | Ok text => jsonify 200 [("answer", JString text)]
           | Raise _ => error_response 500 "Failed to get answer from AI model."
           end) w.
Proof.
  intros Hg Hq Hc. unfold chat_with_data. rewrite Hg.
  assert (missing_keys (Some d) ["question"; "full_data_context"] = false) as ->
    by (apply missing_two_keys; by exists d, question, context).
  unfold getitem. rewrite Hq, Hc. by destruct (g _).
Qed.



End Gemini.

(** * The further properties on the sample libraries *)

Import Cases.

Lemma model_inputs_closed_form_witness :
  exists window forecast,
    preprocess_data_for_prediction three_rows 100 = Ok [window] /\
    inference (upload_and_forecast with_model good fresh) =
      map (fun i => [drop i window ++ as_column (take i forecast)]) (seq 0 30).
Proof.
  destruct (model_inputs_closed_form with_model good fresh eq_refl)
    as (file & df & rows & window & forecast & original & dates
        & Hf & Hr & Hc & Hp & Hi & _).
  exists window, forecast. split; [|exact Hi].
  injection Hf as <-. injection Hr as <-. injection Hc as <-. exact Hp.
Defined.

Lemma preprocess_raises_only_at_zero_witness :
  exists input, preprocess_data_for_prediction three_rows 100 = Ok input.
Proof.
  apply (proj2 (preprocess_raises_only_at_zero three_rows 100)). left. lia.
Defined.

Lemma older_observations_ignored_witness :
  preprocess_data_for_prediction (old_row ++ recent_rows) 100 =
    preprocess_data_for_prediction recent_rows 100.
Proof.
  apply (older_observations_ignored old_row recent_rows 100); [lia|reflexivity].
Defined.

Lemma short_series_as_zero_levels_witness :
  preprocess_data_for_prediction (replicate (100 - length three_rows) (day 0, 0%Z) ++ three_rows)
    100 =
    preprocess_data_for_prediction three_rows 100.
Proof.
  apply (short_series_as_zero_levels three_rows 100 (day 0)). simpl. lia.
Defined.

Lemma allowed_file_ignores_case_witness :
  allowed_file "REPORT.XLSX" = allowed_file "report.xlsx".
Proof. apply (allowed_file_ignores_case "REPORT.XLSX" "report.xlsx"). reflexivity. Defined.

Lemma unreadable_workbook_witness :
  upload_and_forecast with_model (upload "levels.xlsx" "noise") fresh =
    mkReply (error_response 500
               "An error occurred while processing the file: File is not a zip file")
            (mkWorld 0 (delete "uploads/levels.xlsx" ∅)) [].
Proof.
  apply (unreadable_workbook with_model persistence (upload "levels.xlsx" "noise")
           (mkFile "levels.xlsx" "noise") fresh "File is not a zip file");
    reflexivity.
Defined.

Lemma first_model_failure_witness :
  resp (upload_and_forecast with_mute_model good fresh) =
    generic_error "index 0 is out of bounds for axis 0 with size 0" /\
  inference (upload_and_forecast with_mute_model good fresh) = [window1].
Proof.
  apply (first_model_failure with_mute_model mute good (mkFile "levels.xlsx" "measurements")
           fresh measurements three_rows window1); reflexivity.
Defined.





Lemma chat_relays_gemini_witness :
  chat_with_data with_offline_gemini chat_body fresh =
    quiet (error_response 500 "Failed to get answer from AI model.") fresh.
Proof.
  apply (chat_relays_gemini with_offline_gemini offline
           {[ "question" := JString "Is the level rising?";
              "full_data_context" := JString "levels: 50, 51, 52" ]}
           (JString "Is the level rising?") (JString "levels: 50, 51, 52") fresh);
    reflexivity.
Defined.

